(** * FLARE test-data generator: a shallow embedding of
      [backend/scripts/generate_test_data.py] and its verified properties.

    The script draws from Python's process-wide [random] generator, builds two
    lists of dictionaries (customers and sanctions) and writes each one with
    [csv.DictWriter].  The embedding threads the random source explicitly, keeps
    dictionaries as insertion-ordered association lists with string keys and
    values, lets every library call that can raise return an error, and takes
    what the operating system and the standard output do as an environment. *)

From Stdlib Require Import ZArith NArith List String Ascii Bool Lia QArith.
From Stdlib Require Import DecimalString.
Import ListNotations.

Local Open Scope string_scope.
Local Open Scope Z_scope.

(* ================================================================== *)
(** ** Exceptions and the generator monad *)

(** The Python exceptions the library calls of the script can raise. *)
Inductive exn : Type :=
| IndexError      (* random.choice on an empty sequence *)
| ValueError      (* datetime out of range, randint on an empty range,
                     DictWriter row with a key outside fieldnames *)
| OverflowError   (* a datetime argument beyond a C int, date arithmetic
                     leaving [date.min, date.max] *)
| OSError.        (* a file that cannot be opened or stored *)

Inductive result (A : Type) : Type :=
| Ok (a : A)
| Raise (e : exn).
Arguments Ok {A} a.
Arguments Raise {A} e.

(** The random source: an unbounded tape of raw draws and the position of the
    next unread one.  Every call into [random] reads one draw and advances. *)
Record RandomSource : Type := mkSource {
  tape : nat -> N;
  cursor : nat
}.

Definition advance (k : nat) (r : RandomSource) : RandomSource :=
  mkSource (tape r) (k + cursor r).

(** Computations that read the random source and may raise. *)
Definition M (A : Type) : Type := RandomSource -> result A * RandomSource.

Definition ret {A} (a : A) : M A := fun r => (Ok a, r).

Definition raise {A} (e : exn) : M A := fun r => (Raise e, r).

Definition bind {A B} (c : M A) (k : A -> M B) : M B :=
  fun r => match c r with
           | (Ok a, r') => k a r'
           | (Raise e, r') => (Raise e, r')
           end.

Definition lift {A} (x : result A) : M A := fun r => (x, r).

Notation "x <- c ;; k" := (bind c (fun x => k))
  (at level 61, c at next level, right associativity).

(* ================================================================== *)
(** ** The [random] module *)

(** One raw draw from the tape. *)
Definition draw : M N :=
  fun r => (Ok (tape r (cursor r)), mkSource (tape r) (S (cursor r))).

(** [Random._randbelow(n)] for [n > 0]: an integer in [[0, n)]. *)
Definition randbelow (n : Z) : M Z :=
  k <- draw ;; ret (Z.of_N k mod n).

(** [random.choice(seq)]: [seq[_randbelow(len(seq))]]; IndexError when empty. *)
Definition choice {A} (seq : list A) : M A :=
  match seq with
  | [] => raise IndexError
  | d :: _ => i <- randbelow (Z.of_nat (List.length seq)) ;;
              ret (nth (Z.to_nat i) seq d)
  end.

(** [random.randint(a, b)]: [randrange(a, b+1)], that is
    [a + _randbelow(b - a + 1)]; ValueError when the range is empty. *)
Definition randint (a b : Z) : M Z :=
  if a <=? b then k <- randbelow (b - a + 1) ;; ret (a + k)
  else raise ValueError.

(** [random.random()] returns the double [k / 2^53] for a 53-bit integer [k];
    the model keeps the numerator [k]. *)
Definition random : M N :=
  k <- draw ;; ret (k mod 2 ^ 53)%N.

(** The double nearest to the literal [0.1] is [3602879701896397 / 2^55], so
    the float comparison [k / 2^53 < 0.1] is the integer comparison below. *)
Definition float_lt_0_1 (k : N) : bool := (4 * k <? 3602879701896397)%N.

(** The same draw read as an exact rational. *)
Definition float_value (k : N) : Q := Z.of_N k # (2 ^ 53).

(* ================================================================== *)
(** ** Sample data pools *)

Definition FIRST_NAMES : list string := [
  "James"; "Mary"; "John"; "Patricia"; "Robert"; "Jennifer"; "Michael"; "Linda";
  "William"; "Barbara"; "David"; "Elizabeth"; "Richard"; "Susan"; "Joseph"; "Jessica";
  "Thomas"; "Sarah"; "Christopher"; "Karen"; "Daniel"; "Nancy"; "Matthew"; "Lisa";
  "Anthony"; "Betty"; "Mark"; "Margaret"; "Donald"; "Sandra"; "Steven"; "Ashley";
  "Paul"; "Kimberly"; "Andrew"; "Emily"; "Joshua"; "Donna"; "Kenneth"; "Michelle";
  "Christina"; "George"; "Laura"; "Kevin"; "Carol"; "Brian"; "Amanda"; "Edward"
].

Definition LAST_NAMES : list string := [
  "Smith"; "Johnson"; "Williams"; "Brown"; "Jones"; "Garcia"; "Miller"; "Davis";
  "Rodriguez"; "Martinez"; "Hernandez"; "Lopez"; "Gonzalez"; "Wilson"; "Anderson";
  "Thomas"; "Taylor"; "Moore"; "Jackson"; "Martin"; "Lee"; "Perez"; "Thompson";
  "White"; "Harris"; "Sanchez"; "Clark"; "Ramirez"; "Lewis"; "Robinson"; "Walker";
  "Young"; "Allen"; "King"; "Wright"; "Scott"; "Torres"; "Nguyen"; "Hill"; "Flores";
  "Green"; "Adams"; "Nelson"; "Baker"; "Hall"; "Rivera"; "Campbell"; "Mitchell";
  "Carter"; "Roberts"; "Vargas"; "Harper"; "Newman"; "Blake"; "Walters"
].

Definition COUNTRIES : list string := [
  "US"; "UK"; "CA"; "AU"; "DE"; "FR"; "IT"; "ES"; "NL"; "SE";
  "NO"; "DK"; "FI"; "IE"; "NZ"; "CH"; "AT"; "BE"; "PT"; "GR";
  "PL"; "CZ"; "HU"; "RO"; "BG"; "HR"; "SI"; "SK"; "LT"; "LV";
  "EE"; "JP"; "KR"; "CN"; "IN"; "SG"; "MY"; "TH"; "PH"; "ID";
  "VN"; "BR"; "MX"; "AR"; "CL"; "CO"; "PE"; "VE"; "ZA"; "EG"
].

Definition PROGRAMS : list string := [
  "OFAC SDN"; "EU Sanctions"; "UN Sanctions"; "DFAT Sanctions";
  "HMT Sanctions"; "SECO Sanctions"; "FINMA Watchlist"; "PEP List"
].

(* ================================================================== *)
(** ** The [datetime] module (proleptic Gregorian ordinals) *)

Module Datetime.

Definition MINYEAR : Z := 1.
Definition MAXYEAR : Z := 9999.

(** A [datetime] at midnight: the script never sets a time of day. *)
Record datetime : Type := mkDate { year : Z; month : Z; day : Z }.

Definition is_leap (y : Z) : bool :=
  (y mod 4 =? 0) && (negb (y mod 100 =? 0) || (y mod 400 =? 0)).

Definition days_before_year (y : Z) : Z :=
  let p := y - 1 in p * 365 + p / 4 - p / 100 + p / 400.

Definition DAYS_IN_MONTH : list Z :=
  [-1; 31; 28; 31; 30; 31; 30; 31; 31; 30; 31; 30; 31].

Definition DAYS_BEFORE_MONTH : list Z :=
  [-1; 0; 31; 59; 90; 120; 151; 181; 212; 243; 273; 304; 334].

Definition days_in_month (y m : Z) : Z :=
  if (m =? 2) && is_leap y then 29 else nth (Z.to_nat m) DAYS_IN_MONTH 0.

Definition days_before_month (y m : Z) : Z :=
  nth (Z.to_nat m) DAYS_BEFORE_MONTH 0
  + (if (2 <? m) && is_leap y then 1 else 0).

Definition ymd2ord (d : datetime) : Z :=
  days_before_year (year d) + days_before_month (year d) (month d) + day d.

Definition DI400Y : Z := days_before_year 401.
Definition DI100Y : Z := days_before_year 101.
Definition DI4Y : Z := days_before_year 5.
Definition MAXORDINAL : Z := ymd2ord (mkDate 9999 12 31).

(** [_ord2ymd]: the inverse of [ymd2ord], by 400-, 100-, 4- and 1-year cycles. *)
Definition ord2ymd (n0 : Z) : datetime :=
  let n := n0 - 1 in
  let n400 := n / DI400Y in
  let n := n mod DI400Y in
  let y := n400 * 400 + 1 in
  let n100 := n / DI100Y in
  let n := n mod DI100Y in
  let n4 := n / DI4Y in
  let n := n mod DI4Y in
  let n1 := n / 365 in
  let n := n mod 365 in
  let y := y + n100 * 100 + n4 * 4 + n1 in
  if (n1 =? 4) || (n100 =? 4) then mkDate (y - 1) 12 31
  else
    let leapyear := (n1 =? 3) && (negb (n4 =? 24) || (n100 =? 3)) in
    let m := Z.shiftr (n + 50) 5 in
    let preceding :=
      nth (Z.to_nat m) DAYS_BEFORE_MONTH 0
      + (if (2 <? m) && leapyear then 1 else 0) in
    if n <? preceding then
      let m' := m - 1 in
      let preceding' :=
        preceding - (nth (Z.to_nat m') DAYS_IN_MONTH 0
                     + (if (m' =? 2) && leapyear then 1 else 0)) in
      mkDate y m' (n - preceding' + 1)
    else mkDate y m (n - preceding + 1).

(** A calendar date the constructor accepts. *)
Definition valid_date (d : datetime) : bool :=
  (MINYEAR <=? year d) && (year d <=? MAXYEAR)
  && (1 <=? month d) && (month d <=? 12)
  && (1 <=? day d) && (day d <=? days_in_month (year d) (month d)).

(** The arguments of the constructor are read as C [int]s. *)
Definition fits_c_int (n : Z) : bool := (- 2 ^ 31 <=? n) && (n <? 2 ^ 31).

(** [datetime(year, month, day)]: OverflowError for an argument that is no C
    [int], ValueError for one outside the supported range. *)
Definition make (y m d : Z) : result datetime :=
  if negb (fits_c_int y && fits_c_int m && fits_c_int d)
  then Raise OverflowError
  else if valid_date (mkDate y m d) then Ok (mkDate y m d)
  else Raise ValueError.

(** [(b - a).days] for two midnights. *)
Definition delta_days (b a : datetime) : Z := ymd2ord b - ymd2ord a.

(** [d + timedelta(days=k)]: OverflowError outside [[1, MAXORDINAL]]. *)
Definition add_days (d : datetime) (k : Z) : result datetime :=
  let o := ymd2ord d + k in
  if (0 <? o) && (o <=? MAXORDINAL) then Ok (ord2ymd o) else Raise OverflowError.

Definition digit (n : Z) : ascii := ascii_of_nat (48 + Z.to_nat (n mod 10)).

Definition pad2 (n : Z) : string :=
  String (digit (n / 10)) (String (digit n) EmptyString).

Definition pad4 (n : Z) : string :=
  String (digit (n / 1000)) (String (digit (n / 100)) (pad2 n)).

(** [%Y] as the C library prints it, for the years 1 to 9999 of a [datetime]:
    the year in decimal, not padded. *)
Definition year_text (y : Z) : string :=
  if y <? 10 then String (digit y) EmptyString
  else if y <? 100 then pad2 y
  else if y <? 1000 then String (digit (y / 100)) (pad2 y)
  else pad4 y.

(** [d.strftime("%Y-%m-%d")]. *)
Definition strftime (d : datetime) : string :=
  year_text (year d) ++ "-" ++ pad2 (month d) ++ "-" ++ pad2 (day d).

Definition digit_value (c : ascii) : option Z :=
  let n := Z.of_nat (nat_of_ascii c) in
  if (48 <=? n) && (n <=? 57) then Some (n - 48) else None.

Fixpoint digits_value (acc : Z) (s : string) : option Z :=
  match s with
  | EmptyString => Some acc
  | String c s' =>
      match digit_value c with
      | Some v => digits_value (10 * acc + v) s'
      | None => None
      end
  end.

(** Reading a [YYYY-MM-DD] string back: exactly ten characters, digits and two
    hyphens, naming a calendar date that exists. *)
Definition parse_iso (s : string) : option datetime :=
  if negb (Nat.eqb (String.length s) 10) then None
  else if negb (Ascii.eqb (match get 4 s with Some c => c | None => zero end) "-")
  then None
  else if negb (Ascii.eqb (match get 7 s with Some c => c | None => zero end) "-")
  then None
  else
    match digits_value 0 (substring 0 4 s),
          digits_value 0 (substring 5 2 s),
          digits_value 0 (substring 8 2 s) with
    | Some y, Some m, Some d =>
        if valid_date (mkDate y m d) then Some (mkDate y m d) else None
    | _, _, _ => None
    end.

Definition eqb (a b : datetime) : bool :=
  (year a =? year b) && (month a =? month b) && (day a =? day b).

End Datetime.

(* ================================================================== *)
(** ** The generators *)

(** A Python [dict] with string keys and values, in insertion order. *)
Definition record : Type := list (string * string).

(** [d.get(key)]. *)
Fixpoint dict_get (key : string) (d : record) : option string :=
  match d with
  | [] => None
  | (k, v) :: d' => if String.eqb key k then Some v else dict_get key d'
  end.

(** [d[key] = v]: replaces the value of an existing key, else appends. *)
Fixpoint dict_set (key v : string) (d : record) : record :=
  match d with
  | [] => [(key, v)]
  | (k, w) :: d' =>
      if String.eqb key k then (k, v) :: d' else (k, w) :: dict_set key v d'
  end.

Definition dict_keys (d : record) : list string := map fst d.

(** [random_date(start_year, end_year)]. *)
Definition random_date (start_year end_year : Z) : M string :=
  start <- lift (Datetime.make start_year 1 1) ;;
  end_ <- lift (Datetime.make end_year 12 31) ;;
  let delta := Datetime.delta_days end_ start in
  random_days <- randint 0 delta ;;
  date <- lift (Datetime.add_days start random_days) ;;
  ret (Datetime.strftime date).

(** The default arguments of [random_date]. *)
Definition default_start_year : Z := 1940.
Definition default_end_year : Z := 2005.

(** [list.append]. *)
Definition append {A} (l : list A) (x : A) : list A := (l ++ [x])%list.

(** [for i in range(n): acc = body(acc)], for an already clamped [n]. *)
Fixpoint for_range {A} (n : nat) (body : A -> M A) (acc : A) : M A :=
  match n with
  | O => ret acc
  | S n' => acc' <- body acc ;; for_range n' body acc'
  end.

(** [range(k)] runs [max(k, 0)] times. *)
Definition range_len (k : Z) : nat := Z.to_nat k.

(** [f"{random.choice(FIRST_NAMES)} {random.choice(LAST_NAMES)}"]. *)
Definition full_name : M string :=
  first <- choice FIRST_NAMES ;;
  last <- choice LAST_NAMES ;;
  ret (first ++ " " ++ last)%string.

(** The record placed first when [include_christina] is set. *)
Definition christina_customer : record :=
  [("name", "Christina Vargas");
   ("date_of_birth", "1995-07-23");
   ("country", "AU")].

Definition christina_sanction : record :=
  [("name", "Christina Vargas");
   ("date_of_birth", "1995-07-23");
   ("country", "AU");
   ("program", "OFAC SDN");
   ("aliases", "")].

(** One pass of the loop body of [generate_customers], up to the append. *)
Definition customer_row : M record :=
  name <- full_name ;;
  dob <- random_date default_start_year default_end_year ;;
  country <- choice COUNTRIES ;;
  ret [("name", name); ("date_of_birth", dob); ("country", country)].

Definition generate_customers (count : Z) (include_christina : bool)
  : M (list record) :=
  let customers := [] in
  let customers :=
    if include_christina then append customers christina_customer
    else customers in
  for_range (range_len (count - (if include_christina then 1 else 0)))
    (fun customers => row <- customer_row ;; ret (append customers row))
    customers.

(** The alias part of the loop body of [generate_sanctions]. *)
Definition alias_field : M string :=
  u <- random ;;
  if float_lt_0_1 u then alias_name <- full_name ;; ret alias_name
  else ret ""%string.

(** One pass of the loop body of [generate_sanctions], up to the append. *)
Definition sanction_row : M record :=
  name <- full_name ;;
  dob <- random_date default_start_year default_end_year ;;
  country <- choice COUNTRIES ;;
  program <- choice PROGRAMS ;;
  aliases <- alias_field ;;
  ret [("name", name); ("date_of_birth", dob); ("country", country);
       ("program", program); ("aliases", aliases)].

Definition generate_sanctions (count : Z) (include_christina : bool)
  : M (list record) :=
  let sanctions := [] in
  let sanctions :=
    if include_christina then append sanctions christina_sanction
    else sanctions in
  for_range (range_len (count - (if include_christina then 1 else 0)))
    (fun sanctions => row <- sanction_row ;; ret (append sanctions row))
    sanctions.

(** A source whose every draw is [k], and one that counts up from [k]. *)
Definition constant_source (k : N) : RandomSource := mkSource (fun _ => k) 0.
Definition counting_source (k : N) : RandomSource :=
  mkSource (fun i => (k + N.of_nat i)%N) 0.

(* ================================================================== *)
(** ** The [csv] module and [write_csv] *)

Module Csv.

Definition comma : ascii := ","%char.
Definition dquote : ascii := "034"%char.
Definition CR : ascii := "013"%char.
Definition LF : ascii := "010"%char.

(** The line terminator of the default (excel) dialect. *)
Definition CRLF : string := String CR (String LF EmptyString).

(** *** [csv.writer], excel dialect, QUOTE_MINIMAL *)

(** A character that forces its field to be quoted: the delimiter, the quote
    character, or a character of the line terminator. *)
Definition special (c : ascii) : bool :=
  Ascii.eqb c comma || Ascii.eqb c dquote || Ascii.eqb c CR || Ascii.eqb c LF.

Fixpoint needs_quotes (s : string) : bool :=
  match s with
  | EmptyString => false
  | String c s' => special c || needs_quotes s'
  end.

(** The field data as copied into the record: every quote is doubled. *)
Fixpoint escape (s : string) : string :=
  match s with
  | EmptyString => EmptyString
  | String c s' =>
      if Ascii.eqb c dquote then String dquote (String dquote (escape s'))
      else String c (escape s')
  end.

Definition field_text (s : string) : string :=
  if needs_quotes s then String dquote (escape s ++ String dquote EmptyString)
  else s.

Fixpoint join_fields (fields : list string) : string :=
  match fields with
  | [] => EmptyString
  | [f] => field_text f
  | f :: rest => field_text f ++ String comma (join_fields rest)
  end.

(** [writer.writerow(fields)]: a record that would come out empty although it
    has a field (one empty string) is written as a quoted empty field. *)
Definition row_text (fields : list string) : string :=
  let body := join_fields fields in
  let body :=
    match fields, body with
    | _ :: _, EmptyString => String dquote (String dquote EmptyString)
    | _, _ => body
    end in
  body ++ CRLF.

(** *** [csv.DictWriter] with the default [restval] and [extrasaction] *)

(** [rowdict.keys() - fieldnames]. *)
Definition wrong_fields (fieldnames : list string) (rowdict : record)
  : list string :=
  filter (fun k => negb (existsb (String.eqb k) fieldnames)) (dict_keys rowdict).

(** [rowdict.get(key, restval)] with the default empty [restval]. *)
Definition get_or_restval (rowdict : record) (key : string) : string :=
  match dict_get key rowdict with
  | Some v => v
  | None => EmptyString
  end.

Definition row_fields (fieldnames : list string) (rowdict : record)
  : list string :=
  map (get_or_restval rowdict) fieldnames.

(** [DictWriter._dict_to_list]: ValueError on a key outside [fieldnames], a
    missing key is written as [restval]. *)
Definition dict_to_list (fieldnames : list string) (rowdict : record)
  : result (list string) :=
  match wrong_fields fieldnames rowdict with
  | [] => Ok (row_fields fieldnames rowdict)
  | _ :: _ => Raise ValueError
  end.

(** [writeheader()]: the row of [dict(zip(fieldnames, fieldnames))]. *)
Definition header_text (fieldnames : list string) : string :=
  row_text fieldnames.

(** [writerows(data)]: rows are written one by one, so the text written before
    a failing row stays written. *)
Fixpoint rows_text (fieldnames : list string) (data : list record)
  : string * option exn :=
  match data with
  | [] => (EmptyString, None)
  | rowdict :: rest =>
      match dict_to_list fieldnames rowdict with
      | Ok fields =>
          let (text, err) := rows_text fieldnames rest in
          (row_text fields ++ text, err)
      | Raise e => (EmptyString, Some e)
      end
  end.

(** *** A reader for the written format *)

Inductive mode : Type :=
| StartRecord | StartField | InField | InQuoted | QuoteInQuoted | AfterCR.

Record pstate : Type := mkP {
  p_mode : mode;
  p_field : string;               (* the field being read *)
  p_row : list string;            (* the fields of the record being read *)
  p_rows : list (list string)     (* the records read *)
}.

Definition add_char (c : ascii) (m : mode) (st : pstate) : pstate :=
  mkP m (p_field st ++ String c EmptyString) (p_row st) (p_rows st).

Definition save_field (m : mode) (st : pstate) : pstate :=
  mkP m EmptyString (p_row st ++ [p_field st]) (p_rows st).

Definition end_record (m : mode) (st : pstate) : pstate :=
  mkP m EmptyString [] (p_rows st ++ [p_row st]).

Definition start_field (c : ascii) (st : pstate) : pstate :=
  if Ascii.eqb c CR then end_record AfterCR (save_field StartField st)
  else if Ascii.eqb c LF then end_record StartRecord (save_field StartField st)
  else if Ascii.eqb c dquote then mkP InQuoted (p_field st) (p_row st) (p_rows st)
  else if Ascii.eqb c comma then save_field StartField st
  else add_char c InField st.

Definition start_record (c : ascii) (st : pstate) : pstate :=
  if Ascii.eqb c CR then end_record AfterCR st
  else if Ascii.eqb c LF then end_record StartRecord st
  else start_field c st.

Definition step (st : pstate) (c : ascii) : pstate :=
  match p_mode st with
  | StartRecord => start_record c st
  | AfterCR =>
      if Ascii.eqb c LF then mkP StartRecord (p_field st) (p_row st) (p_rows st)
      else start_record c st
  | StartField => start_field c st
  | InField =>
      if Ascii.eqb c CR then end_record AfterCR (save_field StartField st)
      else if Ascii.eqb c LF then end_record StartRecord (save_field StartField st)
      else if Ascii.eqb c comma then save_field StartField st
      else add_char c InField st
  | InQuoted =>
      if Ascii.eqb c dquote then mkP QuoteInQuoted (p_field st) (p_row st) (p_rows st)
      else add_char c InQuoted st
  | QuoteInQuoted =>
      if Ascii.eqb c dquote then add_char c InQuoted st
      else if Ascii.eqb c comma then save_field StartField st
      else if Ascii.eqb c CR then end_record AfterCR (save_field StartField st)
      else if Ascii.eqb c LF then end_record StartRecord (save_field StartField st)
      else add_char c InField st
  end.

Fixpoint run (st : pstate) (text : string) : pstate :=
  match text with
  | EmptyString => st
  | String c text' => run (step st c) text'
  end.

(** At the end of the text a record still being read is closed. *)
Definition finish (st : pstate) : list (list string) :=
  match p_mode st with
  | StartRecord | AfterCR => p_rows st
  | _ => p_rows (end_record StartRecord (save_field StartField st))
  end.

Definition initial : pstate := mkP StartRecord EmptyString [] [].

(** Modelled from the spec: the repository has no reader; re-parsing splits the
    text into records and fields, undoing the quoting of the writer's dialect
    (a quoted field runs to its closing quote, a doubled quote inside it is one
    quote, a line end outside quotes closes the record). *)
Definition parse_csv (text : string) : list (list string) :=
  finish (run initial text).

(** [dict(zip(fieldnames, row))]. *)
Definition dict_of_row (fieldnames row : list string) : record :=
  fold_left (fun d kv => dict_set (fst kv) (snd kv) d) (combine fieldnames row) [].

(** Modelled from the spec: re-parsing with the matching field order skips the
    header row and reads every further row as a record keyed by [fieldnames],
    in that order. *)
Definition read_csv (fieldnames : list string) (text : string)
  : option (list record) :=
  match parse_csv text with
  | [] => None
  | _header :: rows => Some (map (dict_of_row fieldnames) rows)
  end.

End Csv.

(** The files of the working directory, by name. *)
Definition filesystem : Type := string -> option string.

Definition fs_write (fs : filesystem) (filename text : string) : filesystem :=
  fun name => if String.eqb name filename then Some text else fs name.

(** *** The operating system and the standard output *)

Module Os.

(** What surrounds a run: the files, the lines printed so far, and what the
    surroundings answer when the script opens a file for writing (the error
    raised, if any), stores a text in it (how many characters are stored
    before the device fails, if it does) and prints a line (the error raised,
    if any). *)
Record env : Type := mkEnv {
  files : filesystem;
  stdout : list string;
  open_fault : string -> option exn;
  store_fault : string -> string -> option nat;
  print_fault : string -> option exn
}.

Definition with_files (e : env) (fs : filesystem) : env :=
  mkEnv fs (stdout e) (open_fault e) (store_fault e) (print_fault e).

(** [print(line)]. *)
Definition print (line : string) (e : env) : result unit * env :=
  match print_fault e line with
  | Some x => (Raise x, e)
  | None =>
      (Ok tt,
       mkEnv (files e) (stdout e ++ [line]) (open_fault e) (store_fault e)
             (print_fault e))
  end.

(** One [print] after the other, up to the first that raises. *)
Fixpoint prints (lines : list string) (e : env) : result unit * env :=
  match lines with
  | [] => (Ok tt, e)
  | line :: rest =>
      match print line e with
      | (Ok _, e') => prints rest e'
      | (Raise x, e') => (Raise x, e')
      end
  end.

(** [str(n)] of a length. *)
Definition decimal (n : nat) : string := NilZero.string_of_uint (Nat.to_uint n).

(** The UTF-8 bytes of the three pictographs the script prints. *)
Definition check_mark : string :=
  String "226" (String "156" (String "133" EmptyString)).
Definition bar_chart : string :=
  String "240" (String "159" (String "147" (String "138" EmptyString))).
Definition light_bulb : string :=
  String "240" (String "159" (String "146" (String "161" EmptyString))).

(** The line [write_csv] prints when the file is written. *)
Definition report (filename : string) (n : nat) : string :=
  check_mark ++ " Generated " ++ filename ++ " with " ++ decimal n ++ " records".

(** [write_csv(filename, data, fieldnames)].  [open] raises or truncates the
    file; the header and the rows are written, up to the first row that
    raises ValueError; leaving the [with] block stores what was written, and
    a device that fails leaves a part of it and raises OSError, also when a
    row had raised; only after that does the row's error surface, or else
    the report is printed. *)
Definition write_csv (filename : string) (data : list record)
    (fieldnames : list string) (e : env) : result unit * env :=
  match open_fault e filename with
  | Some x => (Raise x, e)
  | None =>
      let (text, err) := Csv.rows_text fieldnames data in
      let written := (Csv.header_text fieldnames ++ text)%string in
      match store_fault e filename written with
      | Some k =>
          (Raise OSError,
           with_files e (fs_write (files e) filename (substring 0 k written)))
      | None =>
          let e' := with_files e (fs_write (files e) filename written) in
          match err with
          | Some x => (Raise x, e')
          | None => print (report filename (List.length data)) e'
          end
      end
  end.

(** Surroundings in which nothing fails. *)
Definition quiet (fs : filesystem) : env :=
  mkEnv fs [] (fun _ => None) (fun _ _ => None) (fun _ => None).

End Os.

(** [Os.write_csv] run in surroundings where nothing fails, every file can be
    opened and stored and every line printed, keeping what it returns and the
    files it leaves: the part of a call that depends on the data alone. *)
Definition write_csv (filename : string) (data : list record)
    (fieldnames : list string) (fs : filesystem) : result unit * filesystem :=
  let (res, e) := Os.write_csv filename data fieldnames (Os.quiet fs) in
  (res, Os.files e).

Definition empty_fs : filesystem := fun _ => None.

(** The field orders the script passes to [write_csv]. *)
Definition customer_fieldnames : list string :=
  ["name"; "date_of_birth"; "country"].

Definition sanction_fieldnames : list string :=
  ["name"; "date_of_birth"; "country"; "program"; "aliases"].

(** *** The script *)

Module Script.

(** The five lines of the closing summary. *)
Definition summary (customers sanctions : nat) : list string :=
  [(String Csv.LF Os.bar_chart ++ " Summary:")%string;
   ("  - Customers: " ++ Os.decimal customers
    ++ " (including Christina Vargas)")%string;
   ("  - Sanctions: " ++ Os.decimal sanctions
    ++ " (including Christina Vargas)")%string;
   "  - Expected matches: 1 (Christina Vargas)"%string;
   (String Csv.LF Os.light_bulb
    ++ " Upload these files through the UI to test with lower collision probability")%string].

(** The [__main__] block: 1000 customers are generated and written, then 1000
    sanctions are generated from the source as the customers left it and
    written to a second file, then the summary is printed.  An exception ends
    the run where it is raised. *)
Definition main (r : RandomSource) (e : Os.env)
  : result unit * RandomSource * Os.env :=
  match generate_customers 1000 true r with
  | (Raise x, r1) => (Raise x, r1, e)
  | (Ok customers, r1) =>
      match Os.write_csv "client_data_large.csv" customers
              customer_fieldnames e with
      | (Raise x, e1) => (Raise x, r1, e1)
      | (Ok _, e1) =>
          match generate_sanctions 1000 true r1 with
          | (Raise x, r2) => (Raise x, r2, e1)
          | (Ok sanctions, r2) =>
              match Os.write_csv "server_data_large.csv" sanctions
                      sanction_fieldnames e1 with
              | (Raise x, e2) => (Raise x, r2, e2)
              | (Ok _, e2) =>
                  let (res, e3) :=
                    Os.prints
                      (summary (List.length customers) (List.length sanctions))
                      e2 in
                  (res, r2, e3)
              end
          end
      end
  end.

End Script.

(* ================================================================== *)
(** ** Specification vocabulary: the draws a pass reads, and what is said
       of rows, dates, aliases and files *)

(** What [random.choice] returns on draw [k]. *)
Definition pick (seq : list string) (k : N) : string :=
  nth (Z.to_nat (Z.of_N k mod Z.of_nat (List.length seq))) seq (hd ""%string seq).

(** The name composed from two draws. *)
Definition name_of (a b : N) : string :=
  (pick FIRST_NAMES a ++ " " ++ pick LAST_NAMES b)%string.

(** The day count between the default bounds. *)
Definition default_span : Z :=
  Datetime.delta_days (Datetime.mkDate default_end_year 12 31)
                      (Datetime.mkDate default_start_year 1 1).

(** The offset [randint(0, span)] returns on draw [k], and the date string
    [random_date()] builds from it. *)
Definition offset_of (k : N) : Z := Z.of_N k mod (default_span + 1).

Definition date_at (offset : Z) : Datetime.datetime :=
  Datetime.ord2ymd
    (Datetime.ymd2ord (Datetime.mkDate default_start_year 1 1) + offset).

Definition date_of (k : N) : string := Datetime.strftime (date_at (offset_of k)).

(** What is checked of a date [d] meant to have ordinal [o]: its string reads
    back as the same calendar date, that date exists, its year lies in the
    configured bounds, and its ordinal is [o]. *)
Definition date_ok (d : Datetime.datetime) (o : Z) : bool :=
  match Datetime.parse_iso (Datetime.strftime d) with
  | Some d' =>
      Datetime.eqb d' d
      && (default_start_year <=? Datetime.year d)
      && (Datetime.year d <=? default_end_year)
      && (Datetime.ymd2ord d =? o)
  | None => false
  end.

(** The ordinal [offset] days after the earliest bound. *)
Definition ordinal_at (offset : Z) : Z :=
  Datetime.ymd2ord (Datetime.mkDate default_start_year 1 1) + offset.

(** [f] holds on the [2^k] integers from [lo] on. *)
Fixpoint check_block (k : nat) (lo : Z) (f : Z -> bool) : bool :=
  match k with
  | O => f lo
  | S k' => check_block k' lo f && check_block k' (lo + 2 ^ Z.of_nat k') f
  end.

(** A date string is in bounds when it reads back as an existing calendar date
    whose year lies between the default start and end years. *)
Definition dob_in_bounds (s : string) : Prop :=
  exists d, Datetime.parse_iso s = Some d
            /\ Datetime.valid_date d = true
            /\ default_start_year <= Datetime.year d <= default_end_year.

(** The customer built from the four draws at positions [c .. c+3]. *)
Definition customer_of (t : nat -> N) (c : nat) : record :=
  [("name", name_of (t c) (t (S c)));
   ("date_of_birth", date_of (t (S (S c))));
   ("country", pick COUNTRIES (t (S (S (S c)))))].

(** The uniform draw of a sanction pass starting at [c], as a numerator. *)
Definition alias_draw (t : nat -> N) (c : nat) : N := (t (5 + c)%nat mod 2 ^ 53)%N.

(** The alias the pass starting at [c] writes. *)
Definition alias_of (t : nat -> N) (c : nat) : string :=
  if float_lt_0_1 (alias_draw t c)
  then name_of (t (6 + c)%nat) (t (7 + c)%nat)
  else ""%string.

(** How many draws the pass starting at [c] reads. *)
Definition sanction_draws (t : nat -> N) (c : nat) : nat :=
  if float_lt_0_1 (alias_draw t c) then 8%nat else 6%nat.

(** The sanction built by the pass starting at [c]. *)
Definition sanction_of (t : nat -> N) (c : nat) : record :=
  [("name", name_of (t c) (t (S c)));
   ("date_of_birth", date_of (t (S (S c))));
   ("country", pick COUNTRIES (t (S (S (S c)))));
   ("program", pick PROGRAMS (t (4 + c)%nat));
   ("aliases", alias_of t c)].

(** The loop body of both generators: build one row, append it. *)
Definition push (gen : M record) (acc : list record) : M (list record) :=
  row <- gen ;; ret (append acc row).

(** The rows of [n] passes that always succeed: from cursor [c] on tape [t] a
    pass builds [row_of t c] and leaves the cursor [cost t c] draws further. *)
Fixpoint rows_from (row_of : (nat -> N) -> nat -> record)
    (cost : (nat -> N) -> nat -> nat) (t : nat -> N) (n c : nat)
  : list record :=
  match n with
  | O => []
  | S n' => row_of t c :: rows_from row_of cost t n' (cost t c + c)
  end.

(** The cursor after those [n] passes. *)
Fixpoint cursor_after (cost : (nat -> N) -> nat -> nat) (t : nat -> N)
    (n c : nat) : nat :=
  match n with
  | O => c
  | S n' => cursor_after cost t n' (cost t c + c)
  end.

(** The rows the two loops add, from cursor [c] on tape [t]. *)
Definition customer_rows : (nat -> N) -> nat -> nat -> list record :=
  rows_from customer_of (fun _ _ => 4%nat).

Definition sanction_rows : (nat -> N) -> nat -> nat -> list record :=
  rows_from sanction_of sanction_draws.

(** The list each generator starts from. *)
Definition customer_prefix (include_christina : bool) : list record :=
  if include_christina then [christina_customer] else [].

Definition sanction_prefix (include_christina : bool) : list record :=
  if include_christina then [christina_sanction] else [].

(** How many passes the loop makes. *)
Definition passes (count : Z) (include_christina : bool) : nat :=
  range_len (count - (if include_christina then 1 else 0)).

(** The text of the data rows when no row raises. *)
Fixpoint data_text (fieldnames : list string) (data : list record) : string :=
  match data with
  | [] => EmptyString
  | rowdict :: rest =>
      (Csv.row_text (Csv.row_fields fieldnames rowdict)
       ++ data_text fieldnames rest)%string
  end.

(** The country of a row is one of COUNTRIES. *)
Definition country_in_pool (row : record) : Prop :=
  exists c, dict_get "country" row = Some c /\ In c COUNTRIES.

(** The program of a row is one of PROGRAMS. *)
Definition program_in_pool (row : record) : Prop :=
  exists p, dict_get "program" row = Some p /\ In p PROGRAMS.

(** Two sources hold the same stream of unread draws. *)
Definition agree (r1 r2 : RandomSource) : Prop :=
  forall i : nat, tape r1 (cursor r1 + i) = tape r2 (cursor r2 + i).

(** A pass reads only the draws from its cursor on. *)
Definition reads_ahead (row_of : (nat -> N) -> nat -> record)
    (cost : (nat -> N) -> nat -> nat) : Prop :=
  forall t1 c1 t2 c2,
    (forall i : nat, t1 (c1 + i)%nat = t2 (c2 + i)%nat) ->
    row_of t1 c1 = row_of t2 c2 /\ cost t1 c1 = cost t2 c2.

(** The stream of [counting_source 5], stored three positions further. *)
Definition shifted_source : RandomSource :=
  mkSource (fun i => (2 + N.of_nat i)%N) 3.

(** The date of birth of a row reads back as an existing calendar date of the
    years 1940 to 2005. *)
Definition dob_from_1940_to_2005 (row : record) : Prop :=
  exists s d,
    dict_get "date_of_birth" row = Some s
    /\ Datetime.parse_iso s = Some d
    /\ Datetime.valid_date d = true
    /\ 1940 <= Datetime.year d <= 2005.

(** The date of birth of a row reads back as a date within the bounds. *)
Definition dob_ok (row : record) : Prop :=
  exists s, dict_get "date_of_birth" row = Some s /\ dob_in_bounds s.

(** The synthesized sanctions [rows] are what the loop of [generate_sanctions]
    builds on tape [t] from cursor [c], ending at cursor [c']: a record takes
    its name, date of birth, country and program from the five draws at
    [c .. c+4]; the draw at [c+5] is its uniform real [u] of [[0, 1)]; when
    [u] is below one tenth the aliases field is the one name composed from
    the draws at [c+6] and [c+7] and the next record starts at [c+8];
    otherwise the aliases field is the empty string and the next record
    starts at [c+6]. *)
Fixpoint sanction_passes (t : nat -> N) (c : nat) (rows : list record)
    (c' : nat) : Prop :=
  match rows with
  | [] => c' = c
  | row :: rest =>
      let u := (t (5 + c)%nat mod 2 ^ 53)%N in
      dict_get "name" row
      = Some (pick FIRST_NAMES (t c) ++ " " ++ pick LAST_NAMES (t (1 + c)%nat))%string
      /\ dict_get "date_of_birth" row = Some (date_of (t (2 + c)%nat))
      /\ dict_get "country" row = Some (pick COUNTRIES (t (3 + c)%nat))
      /\ dict_get "program" row = Some (pick PROGRAMS (t (4 + c)%nat))
      /\ (0 <= float_value u)%Q /\ (float_value u < 1)%Q
      /\ (((float_value u < 1 # 10)%Q
           /\ (exists given family,
                 given = pick FIRST_NAMES (t (6 + c)%nat)
                 /\ family = pick LAST_NAMES (t (7 + c)%nat)
                 /\ In given FIRST_NAMES /\ In family LAST_NAMES
                 /\ dict_get "aliases" row
                    = Some (given ++ " " ++ family)%string)
           /\ sanction_passes t (8 + c) rest c')
          \/ (~ (float_value u < 1 # 10)%Q
              /\ dict_get "aliases" row = Some ""%string
              /\ sanction_passes t (6 + c) rest c'))
  end.

(** A record carries an alias: its aliases field is not the empty string. *)
Definition has_alias (row : record) : bool :=
  match dict_get "aliases" row with
  | Some a => negb (String.eqb a "")
  | None => false
  end.

(** A line of a file: its text, a carriage return and a line feed, and then
    the rest of the file. *)
Definition line (text rest : string) : string :=
  (text ++ String "013" (String "010" rest))%string.

(** The file made of the given lines. *)
Fixpoint lines (texts : list string) : string :=
  match texts with
  | [] => EmptyString
  | text :: rest => line text (lines rest)
  end.

(** The line of a customer under the sanction field order: its three values
    and two empty columns. *)
Definition customer_as_sanction_line (row : record) : string :=
  (Csv.get_or_restval row "name" ++ ","
   ++ Csv.get_or_restval row "date_of_birth" ++ ","
   ++ Csv.get_or_restval row "country" ++ ",,")%string.

(** Where the reader stands after the text of field [s], read from the start
    of a field in mode [m]. *)
Inductive field_read (m : Csv.mode) (s : string) (row : list string)
    (rows : list (list string)) : Csv.pstate -> Prop :=
| read_quoted : field_read m s row rows (Csv.mkP Csv.QuoteInQuoted s row rows)
| read_plain : s <> ""%string ->
    field_read m s row rows (Csv.mkP Csv.InField s row rows)
| read_nothing : s = ""%string ->
    field_read m s row rows (Csv.mkP m "" row rows).

(** The text of a list of records. *)
Fixpoint records_text (records : list (list string)) : string :=
  match records with
  | [] => EmptyString
  | fields :: rest => (Csv.row_text fields ++ records_text rest)%string
  end.

(** A record has the shape of [fieldnames]: the same set of keys. *)
Definition has_shape (fieldnames : list string) (row : record) : Prop :=
  forall k, In k (dict_keys row) <-> In k fieldnames.

(** Two records of one shape whose values need every kind of quoting: a
    comma, quotes, a line break inside a field, and an empty field. *)
Definition sample_fieldnames : list string := ["name"; "aliases"].

Definition sample_data : list record :=
  [[("name", "Vargas, Christina");
    ("aliases", String Csv.dquote ("CV" ++ String Csv.dquote ""))];
   [("aliases", "");
    ("name", String Csv.CR (String Csv.LF "Blake"))]].

(** The name of a row is a given name, a space and a family name, both from
    the pools. *)
Definition name_composed (row : record) : Prop :=
  exists given family,
    In given FIRST_NAMES /\ In family LAST_NAMES
    /\ dict_get "name" row = Some (given ++ " " ++ family)%string.

(** A tape on which every customer pass, started at a multiple of four, draws
    the anchor's given name, family name, day offset and country. *)
Fixpoint anchor_customer_tape (i : nat) : N :=
  match i with
  | 0%nat => 40%N
  | 1%nat => 50%N
  | 2%nat => 20292%N
  | 3%nat => 3%N
  | S (S (S (S i'))) => anchor_customer_tape i'
  end.

(** A tape on which every sanction pass, started at a multiple of six, draws
    the anchor's name, day offset, country and program, and a uniform draw of
    one half. *)
Fixpoint anchor_sanction_tape (i : nat) : N :=
  match i with
  | 0%nat => 40%N
  | 1%nat => 50%N
  | 2%nat => 20292%N
  | 3%nat => 3%N
  | 4%nat => 0%N
  | 5%nat => (2 ^ 52)%N
  | S (S (S (S (S (S i'))))) => anchor_sanction_tape i'
  end.

(** A customer record: exactly the three fields, in this order, the name not
    empty, the date ten characters and the country two characters long. *)
Definition customer_layout (row : record) : Prop :=
  exists n d c,
    row = [("name", n); ("date_of_birth", d); ("country", c)]
    /\ n <> ""%string /\ String.length d = 10%nat /\ String.length c = 2%nat.

(** A sanction record: the customer fields, then a program that is not empty
    and the aliases. *)
Definition sanction_layout (row : record) : Prop :=
  exists n d c p a,
    row = [("name", n); ("date_of_birth", d); ("country", c);
           ("program", p); ("aliases", a)]
    /\ n <> ""%string /\ String.length d = 10%nat /\ String.length c = 2%nat
    /\ p <> ""%string.

(** The line written for a customer is its three values with commas between
    them, as they are. *)
Definition customer_line_plain (row : record) : Prop :=
  exists n d c,
    row = [("name", n); ("date_of_birth", d); ("country", c)]
    /\ Csv.row_text (Csv.row_fields customer_fieldnames row)
       = (n ++ "," ++ d ++ "," ++ c ++ Csv.CRLF)%string.

(** The line written for a sanction is its five values with commas between
    them, as they are. *)
Definition sanction_line_plain (row : record) : Prop :=
  exists n d c p a,
    row = [("name", n); ("date_of_birth", d); ("country", c);
           ("program", p); ("aliases", a)]
    /\ Csv.row_text (Csv.row_fields sanction_fieldnames row)
       = (n ++ "," ++ d ++ "," ++ c ++ "," ++ p ++ "," ++ a ++ Csv.CRLF)%string.

(** The records of [sample_data] with their keys in the other order. *)
Definition sample_data_reordered : list record :=
  [[("aliases", String Csv.dquote ("CV" ++ String Csv.dquote ""));
    ("name", "Vargas, Christina")];
   [("name", String Csv.CR (String Csv.LF "Blake"));
    ("aliases", "")]].

(** Under the sanction field order a customer fills the first three columns
    and leaves program and aliases empty. *)
Definition customer_under_sanction_order (row : record) : Prop :=
  exists n d c,
    row = [("name", n); ("date_of_birth", d); ("country", c)]
    /\ Csv.row_fields sanction_fieldnames row = [n; d; c; ""%string; ""%string].

(** Two records carry the same name, date of birth and country. *)
Definition same_person (a b : record) : Prop :=
  dict_get "name" a = dict_get "name" b
  /\ dict_get "date_of_birth" a = dict_get "date_of_birth" b
  /\ dict_get "country" a = dict_get "country" b.

(* ================================================================== *)
(** ** Running one computation after another *)

Lemma bind_ok {A B} (c : M A) (k : A -> M B) r a r' :
  c r = (Ok a, r') -> bind c k r = k a r'.
Proof. intros H. unfold bind. now rewrite H. Qed.

Lemma bind_raise {A B} (c : M A) (k : A -> M B) r e r' :
  c r = (Raise e, r') -> bind c k r = (Raise e, r').
Proof. intros H. unfold bind. now rewrite H. Qed.

Lemma choice_eq (seq : list string) r :
  seq <> [] ->
  choice seq r
  = (Ok (pick seq (tape r (cursor r))), mkSource (tape r) (S (cursor r))).
Proof. destruct seq as [|d l]; [congruence | reflexivity]. Qed.

Lemma pick_In (seq : list string) k : seq <> [] -> In (pick seq k) seq.
Proof.
  intros Hne. unfold pick. apply nth_In.
  assert (0 < Z.of_nat (List.length seq)) by (destruct seq; [congruence | cbn; lia]).
  pose proof (Z.mod_pos_bound (Z.of_N k) (Z.of_nat (List.length seq)) ltac:(lia)).
  lia.
Qed.

Lemma pools_nonempty :
  FIRST_NAMES <> [] /\ LAST_NAMES <> [] /\ COUNTRIES <> [] /\ PROGRAMS <> [].
Proof. repeat split; discriminate. Qed.

Lemma full_name_eq r :
  full_name r
  = (Ok (name_of (tape r (cursor r)) (tape r (S (cursor r)))),
     mkSource (tape r) (2 + cursor r)).
Proof. reflexivity. Qed.

Lemma default_span_value : default_span = 24106.
Proof. reflexivity. Qed.

Lemma offset_of_range k : 0 <= offset_of k <= default_span.
Proof.
  unfold offset_of. rewrite default_span_value.
  pose proof (Z.mod_pos_bound (Z.of_N k) (24106 + 1) ltac:(lia)). lia.
Qed.

Lemma randint_eq a b r :
  a <= b ->
  randint a b r
  = (Ok (a + Z.of_N (tape r (cursor r)) mod (b - a + 1)),
     mkSource (tape r) (S (cursor r))).
Proof.
  intros Hab. unfold randint.
  destruct (Z.leb_spec a b) as [_|]; [reflexivity | lia].
Qed.

Lemma random_date_eq r :
  random_date default_start_year default_end_year r
  = (Ok (date_of (tape r (cursor r))), mkSource (tape r) (S (cursor r))).
Proof.
  unfold random_date.
  rewrite (bind_ok _ _ r (Datetime.mkDate 1940 1 1) r) by reflexivity.
  rewrite (bind_ok _ _ r (Datetime.mkDate 2005 12 31) r) by reflexivity.
  change (Datetime.delta_days (Datetime.mkDate 2005 12 31)
            (Datetime.mkDate 1940 1 1)) with 24106.
  erewrite bind_ok by (apply randint_eq; lia).
  pose proof (offset_of_range (tape r (cursor r))) as Hoff.
  rewrite default_span_value in Hoff. unfold offset_of in Hoff.
  rewrite default_span_value in Hoff.
  replace (24106 - 0 + 1) with (24106 + 1) by lia.
  set (k := Z.of_N (tape r (cursor r)) mod (24106 + 1)) in *.
  assert (Hadd : Datetime.add_days (Datetime.mkDate 1940 1 1) (0 + k)
                 = Ok (date_at k)).
  { unfold Datetime.add_days, date_at.
    change (Datetime.ymd2ord (Datetime.mkDate 1940 1 1)) with 708205.
    change (Datetime.ymd2ord (Datetime.mkDate default_start_year 1 1)) with 708205.
    change Datetime.MAXORDINAL with 3652059.
    replace (708205 + (0 + k)) with (708205 + k) by lia.
    destruct (Z.ltb_spec 0 (708205 + k)); [|lia].
    destruct (Z.leb_spec (708205 + k) 3652059); [|lia].
    reflexivity. }
  unfold bind at 1, lift at 1. rewrite Hadd.
  unfold date_of, offset_of. rewrite default_span_value. subst k.
  unfold ret. reflexivity.
Qed.

(* ================================================================== *)
(** ** Every date in the default range *)

Lemma check_block_sound k : forall lo f,
  check_block k lo f = true ->
  forall x, lo <= x < lo + 2 ^ Z.of_nat k -> f x = true.
Proof.
  induction k as [|k IH]; intros lo f H x Hx.
  - cbn in *. replace x with lo by lia. exact H.
  - cbn [check_block] in H. apply andb_true_iff in H. destruct H as [H1 H2].
    rewrite Nat2Z.inj_succ, Z.pow_succ_r in Hx by lia.
    destruct (Z_lt_le_dec x (lo + 2 ^ Z.of_nat k)).
    + apply (IH lo f H1). lia.
    + apply (IH _ f H2). lia.
Qed.

Lemma date_check_table :
  check_block 15 0
    (fun x => (default_span <? x) || date_ok (date_at x) (ordinal_at x)) = true.
Proof. vm_cast_no_check (eq_refl true). Qed.

Lemma date_check_range offset :
  0 <= offset <= default_span ->
  date_ok (date_at offset) (ordinal_at offset) = true.
Proof.
  intros H.
  pose proof (check_block_sound 15 0 _ date_check_table offset) as T.
  cbv beta in T.
  assert (R : 0 <= offset < 0 + 2 ^ Z.of_nat 15).
  { rewrite default_span_value in H.
    change (2 ^ Z.of_nat 15) with 32768. lia. }
  specialize (T R). apply orb_true_iff in T.
  destruct T as [T|T]; [apply Z.ltb_lt in T; lia | exact T].
Qed.

Lemma datetime_eqb_eq a b : Datetime.eqb a b = true -> a = b.
Proof.
  destruct a, b. unfold Datetime.eqb. cbn.
  rewrite !andb_true_iff, !Z.eqb_eq. intros [[-> ->] ->]. reflexivity.
Qed.

Lemma parse_iso_valid s d :
  Datetime.parse_iso s = Some d -> Datetime.valid_date d = true.
Proof.
  unfold Datetime.parse_iso.
  destruct (negb _); [discriminate|].
  destruct (negb _); [discriminate|].
  destruct (negb _); [discriminate|].
  destruct (Datetime.digits_value 0 (substring 0 4 s)); [|discriminate].
  destruct (Datetime.digits_value 0 (substring 5 2 s)); [|discriminate].
  destruct (Datetime.digits_value 0 (substring 8 2 s)); [|discriminate].
  destruct (Datetime.valid_date _) eqn:E; [|discriminate].
  intros [= <-]. exact E.
Qed.

Lemma date_ok_sound (d : Datetime.datetime) (o : Z) :
  date_ok d o = true ->
  Datetime.parse_iso (Datetime.strftime d) = Some d
  /\ default_start_year <= Datetime.year d <= default_end_year
  /\ Datetime.ymd2ord d = o.
Proof.
  unfold date_ok.
  destruct (Datetime.parse_iso (Datetime.strftime d)) as [d'|]; [|discriminate].
  intros C. apply andb_true_iff in C. destruct C as [C O].
  apply andb_true_iff in C. destruct C as [C Y2].
  apply andb_true_iff in C. destruct C as [E Y1].
  apply datetime_eqb_eq in E. apply Z.leb_le in Y1. apply Z.leb_le in Y2.
  apply Z.eqb_eq in O. subst d'.
  split; [reflexivity|]. split; [split; assumption | exact O].
Qed.

Lemma date_at_spec offset :
  0 <= offset <= default_span ->
  Datetime.parse_iso (Datetime.strftime (date_at offset)) = Some (date_at offset)
  /\ default_start_year <= Datetime.year (date_at offset) <= default_end_year
  /\ Datetime.ymd2ord (date_at offset) = ordinal_at offset.
Proof.
  intros H.
  exact (date_ok_sound (date_at offset) (ordinal_at offset)
           (date_check_range offset H)).
Qed.

Lemma date_of_in_bounds k : dob_in_bounds (date_of k).
Proof.
  destruct (date_at_spec (offset_of k) (offset_of_range k)) as (P & Y & _).
  exists (date_at (offset_of k)). split; [exact P|]. split; [|exact Y].
  eapply parse_iso_valid. exact P.
Qed.

(* ================================================================== *)
(** ** One loop pass as a function of the draws it reads *)

Lemma customer_row_eq r :
  customer_row r
  = (Ok (customer_of (tape r) (cursor r)), mkSource (tape r) (4 + cursor r)).
Proof.
  unfold customer_row.
  rewrite (bind_ok _ _ _ _ _ (full_name_eq r)).
  rewrite (bind_ok _ _ _ _ _ (random_date_eq _)).
  rewrite (bind_ok _ _ _ _ _ (choice_eq COUNTRIES _ (proj1 (proj2 (proj2 pools_nonempty))))).
  reflexivity.
Qed.

Lemma alias_field_eq t c :
  alias_field (mkSource t (5 + c))
  = (Ok (alias_of t c), mkSource t (sanction_draws t c + c)).
Proof.
  unfold alias_field, alias_of, sanction_draws.
  assert (R : random (mkSource t (5 + c))
              = (Ok (alias_draw t c), mkSource t (6 + c))) by reflexivity.
  rewrite (bind_ok _ _ _ _ _ R).
  destruct (float_lt_0_1 (alias_draw t c)).
  - rewrite (bind_ok _ _ _ _ _ (full_name_eq _)). reflexivity.
  - reflexivity.
Qed.

Lemma sanction_row_eq r :
  sanction_row r
  = (Ok (sanction_of (tape r) (cursor r)),
     mkSource (tape r) (sanction_draws (tape r) (cursor r) + cursor r)).
Proof.
  unfold sanction_row.
  rewrite (bind_ok _ _ _ _ _ (full_name_eq r)).
  rewrite (bind_ok _ _ _ _ _ (random_date_eq _)).
  rewrite (bind_ok _ _ _ _ _ (choice_eq COUNTRIES _ (proj1 (proj2 (proj2 pools_nonempty))))).
  rewrite (bind_ok _ _ _ _ _ (choice_eq PROGRAMS _ (proj2 (proj2 (proj2 pools_nonempty))))).
  cbn [tape cursor].
  rewrite (bind_ok _ _ _ _ _ (alias_field_eq (tape r) (cursor r))).
  reflexivity.
Qed.

(* ================================================================== *)
(** ** The filling loop in closed form *)

Section Rows.

Variable row_of : (nat -> N) -> nat -> record.
Variable cost : (nat -> N) -> nat -> nat.

Lemma rows_from_length t n :
  forall c, List.length (rows_from row_of cost t n c) = n.
Proof. induction n as [|n IH]; intros c; cbn; [reflexivity | now rewrite IH]. Qed.

Lemma rows_from_Forall (P : record -> Prop) t :
  (forall c, P (row_of t c)) -> forall n c, Forall P (rows_from row_of cost t n c).
Proof.
  intros HP n. induction n as [|n IH]; intros c; cbn; constructor; auto.
Qed.

Variable gen : M record.

Hypothesis gen_eq : forall r,
  gen r = (Ok (row_of (tape r) (cursor r)),
           mkSource (tape r) (cost (tape r) (cursor r) + cursor r)).

Lemma for_range_rows n : forall acc t c,
  for_range n (push gen) acc (mkSource t c)
  = (Ok (acc ++ rows_from row_of cost t n c)%list,
     mkSource t (cursor_after cost t n c)).
Proof.
  induction n as [|n IH]; intros acc t c.
  - cbn [for_range rows_from cursor_after]. rewrite app_nil_r. reflexivity.
  - cbn [for_range rows_from cursor_after].
    assert (E : push gen acc (mkSource t c)
                = (Ok (append acc (row_of t c)), mkSource t (cost t c + c))).
    { unfold push. rewrite (bind_ok _ _ _ _ _ (gen_eq (mkSource t c))).
      reflexivity. }
    rewrite (bind_ok _ _ _ _ _ E). rewrite IH. unfold append.
    rewrite <- app_assoc. reflexivity.
Qed.

End Rows.

Lemma generate_customers_eq count include_christina r :
  generate_customers count include_christina r
  = (Ok (customer_prefix include_christina
         ++ customer_rows (tape r) (passes count include_christina) (cursor r))%list,
     mkSource (tape r)
       (cursor_after (fun _ _ => 4%nat) (tape r)
          (passes count include_christina) (cursor r))).
Proof.
  destruct r as [t c]. unfold generate_customers.
  change (fun customers : list record =>
            row <- customer_row ;; ret (append customers row))
    with (push customer_row).
  rewrite (for_range_rows customer_of (fun _ _ => 4%nat) customer_row customer_row_eq).
  destruct include_christina; reflexivity.
Qed.

Lemma generate_sanctions_eq count include_christina r :
  generate_sanctions count include_christina r
  = (Ok (sanction_prefix include_christina
         ++ sanction_rows (tape r) (passes count include_christina) (cursor r))%list,
     mkSource (tape r)
       (cursor_after sanction_draws (tape r)
          (passes count include_christina) (cursor r))).
Proof.
  destruct r as [t c]. unfold generate_sanctions.
  change (fun sanctions : list record =>
            row <- sanction_row ;; ret (append sanctions row))
    with (push sanction_row).
  rewrite (for_range_rows sanction_of sanction_draws sanction_row sanction_row_eq).
  destruct include_christina; reflexivity.
Qed.

(* ================================================================== *)
(** ** Writing well-shaped data *)

Lemma rows_text_ok fieldnames data :
  Forall (fun rowdict => Csv.wrong_fields fieldnames rowdict = []) data ->
  Csv.rows_text fieldnames data = (data_text fieldnames data, None).
Proof.
  induction 1 as [|rowdict rest Hrow _ IH]; [reflexivity|].
  cbn [Csv.rows_text data_text]. unfold Csv.dict_to_list.
  rewrite Hrow, IH. reflexivity.
Qed.

Lemma write_csv_ok filename data fieldnames fs :
  Forall (fun rowdict => Csv.wrong_fields fieldnames rowdict = []) data ->
  write_csv filename data fieldnames fs
  = (Ok tt, fs_write fs filename
              (Csv.header_text fieldnames ++ data_text fieldnames data)%string).
Proof.
  intros H. unfold write_csv, Os.write_csv, Os.quiet.
  cbn [Os.open_fault Os.store_fault Os.files].
  rewrite (rows_text_ok _ _ H). reflexivity.
Qed.

Lemma fs_write_same fs filename text : fs_write fs filename text filename = Some text.
Proof. unfold fs_write. now rewrite String.eqb_refl. Qed.

Lemma fs_write_other fs filename text name :
  name <> filename -> fs_write fs filename text name = fs name.
Proof.
  intros H. unfold fs_write.
  destruct (String.eqb_spec name filename); [contradiction | reflexivity].
Qed.

(** [write_csv] where nothing fails, in terms of the rows' text. *)
Lemma write_csv_quiet filename data fieldnames fs :
  write_csv filename data fieldnames fs
  = (match snd (Csv.rows_text fieldnames data) with
     | Some x => Raise x
     | None => Ok tt
     end,
     fs_write fs filename
       (Csv.header_text fieldnames
        ++ fst (Csv.rows_text fieldnames data))%string).
Proof.
  unfold write_csv, Os.write_csv, Os.quiet.
  cbn [Os.open_fault Os.store_fault Os.files].
  destruct (Csv.rows_text fieldnames data) as [text [x|]]; reflexivity.
Qed.

(** [write_csv] on rows whose keys fit: the three places where the
    surroundings can make it fail, in the order they are reached. *)
Lemma os_write_csv_cases filename data fieldnames e :
  Forall (fun rowdict => Csv.wrong_fields fieldnames rowdict = []) data ->
  Os.write_csv filename data fieldnames e
  = match Os.open_fault e filename with
    | Some x => (Raise x, e)
    | None =>
        match Os.store_fault e filename
                (Csv.header_text fieldnames ++ data_text fieldnames data) with
        | Some k =>
            (Raise OSError,
             Os.mkEnv
               (fs_write (Os.files e) filename
                  (substring 0 k
                     (Csv.header_text fieldnames ++ data_text fieldnames data)))
               (Os.stdout e) (Os.open_fault e) (Os.store_fault e)
               (Os.print_fault e))
        | None =>
            match Os.print_fault e (Os.report filename (List.length data)) with
            | Some x =>
                (Raise x,
                 Os.mkEnv
                   (fs_write (Os.files e) filename
                      (Csv.header_text fieldnames ++ data_text fieldnames data))
                   (Os.stdout e) (Os.open_fault e) (Os.store_fault e)
                   (Os.print_fault e))
            | None =>
                (Ok tt,
                 Os.mkEnv
                   (fs_write (Os.files e) filename
                      (Csv.header_text fieldnames ++ data_text fieldnames data))
                   (Os.stdout e ++ [Os.report filename (List.length data)])
                   (Os.open_fault e) (Os.store_fault e) (Os.print_fault e))
            end
        end
    end.
Proof.
  intros H. unfold Os.write_csv. rewrite (rows_text_ok _ _ H).
  destruct (Os.open_fault e filename); [reflexivity|].
  destruct (Os.store_fault e filename _); [reflexivity|].
  unfold Os.print, Os.with_files.
  cbn [Os.print_fault Os.files Os.stdout Os.open_fault Os.store_fault].
  destruct (Os.print_fault e _); reflexivity.
Qed.

(** What a call that returned left behind. *)
Lemma os_write_csv_ok filename data fieldnames e e' :
  Forall (fun rowdict => Csv.wrong_fields fieldnames rowdict = []) data ->
  Os.write_csv filename data fieldnames e = (Ok tt, e') ->
  Os.open_fault e filename = None
  /\ Os.store_fault e filename
       (Csv.header_text fieldnames ++ data_text fieldnames data) = None
  /\ Os.print_fault e (Os.report filename (List.length data)) = None
  /\ e' = Os.mkEnv
            (fs_write (Os.files e) filename
               (Csv.header_text fieldnames ++ data_text fieldnames data))
            (Os.stdout e ++ [Os.report filename (List.length data)])
            (Os.open_fault e) (Os.store_fault e) (Os.print_fault e).
Proof.
  intros H W. rewrite (os_write_csv_cases _ _ _ _ H) in W.
  destruct (Os.open_fault e filename); [discriminate W|].
  destruct (Os.store_fault e filename _); [discriminate W|].
  destruct (Os.print_fault e _); [discriminate W|].
  injection W as <-. auto.
Qed.

Lemma os_write_csv_no_fault filename data fieldnames e :
  Forall (fun rowdict => Csv.wrong_fields fieldnames rowdict = []) data ->
  Os.open_fault e filename = None ->
  (forall text, Os.store_fault e filename text = None) ->
  (forall printed, Os.print_fault e printed = None) ->
  Os.write_csv filename data fieldnames e
  = (Ok tt,
     Os.mkEnv
       (fs_write (Os.files e) filename
          (Csv.header_text fieldnames ++ data_text fieldnames data))
       (Os.stdout e ++ [Os.report filename (List.length data)])
       (Os.open_fault e) (Os.store_fault e) (Os.print_fault e)).
Proof.
  intros H O S P. rewrite (os_write_csv_cases _ _ _ _ H), O, S, P. reflexivity.
Qed.

Lemma customer_rows_shape t n c :
  Forall (fun rowdict => Csv.wrong_fields customer_fieldnames rowdict = [])
         (customer_rows t n c).
Proof. apply rows_from_Forall. intros c'. reflexivity. Qed.

Lemma sanction_rows_shape t n c :
  Forall (fun rowdict => Csv.wrong_fields sanction_fieldnames rowdict = [])
         (sanction_rows t n c).
Proof. apply rows_from_Forall. intros c'. reflexivity. Qed.

Lemma passes_anchor count : 1 <= count -> Z.of_nat (S (passes count true)) = count.
Proof. intros H. unfold passes, range_len. lia. Qed.

Lemma passes_nonpositive count include_christina :
  count <= 0 -> passes count include_christina = O.
Proof. intros H. unfold passes, range_len. destruct include_christina; lia. Qed.

(* ================================================================== *)
(** ** The anchor record and the requested count *)

Lemma source_eta r : mkSource (tape r) (cursor r) = r.
Proof. destruct r; reflexivity. Qed.

Lemma generate_customers_nonpositive count r :
  count <= 0 ->
  generate_customers count true r = (Ok [christina_customer], r)
  /\ generate_customers count false r = (Ok [], r).
Proof.
  intros H. rewrite !generate_customers_eq.
  rewrite !(passes_nonpositive count _ H). cbn. rewrite source_eta. auto.
Qed.

Lemma generate_sanctions_nonpositive count r :
  count <= 0 ->
  generate_sanctions count true r = (Ok [christina_sanction], r)
  /\ generate_sanctions count false r = (Ok [], r).
Proof.
  intros H. rewrite !generate_sanctions_eq.
  rewrite !(passes_nonpositive count _ H). cbn. rewrite source_eta. auto.
Qed.

Lemma customer_file_text rows :
  (Csv.header_text customer_fieldnames
   ++ data_text customer_fieldnames (christina_customer :: rows))%string
  = line "name,date_of_birth,country"
      (line "Christina Vargas,1995-07-23,AU" (data_text customer_fieldnames rows)).
Proof. reflexivity. Qed.

Lemma sanction_file_text rows :
  (Csv.header_text sanction_fieldnames
   ++ data_text sanction_fieldnames (christina_sanction :: rows))%string
  = line "name,date_of_birth,country,program,aliases"
      (line "Christina Vargas,1995-07-23,AU,OFAC SDN,"
         (data_text sanction_fieldnames rows)).
Proof. reflexivity. Qed.

Lemma anchored_customers_fit t n c :
  Forall (fun rowdict => Csv.wrong_fields customer_fieldnames rowdict = [])
         (christina_customer :: customer_rows t n c).
Proof. constructor; [reflexivity | apply customer_rows_shape]. Qed.

Lemma anchored_sanctions_fit t n c :
  Forall (fun rowdict => Csv.wrong_fields sanction_fieldnames rowdict = [])
         (christina_sanction :: sanction_rows t n c).
Proof. constructor; [reflexivity | apply sanction_rows_shape]. Qed.

(** C1: for every requested count of at least one with the anchor flag set,
    both generators return exactly [count] records, the first of which is the
    fixed anchor record (name Christina Vargas, born 1995-07-23, country AU;
    the sanction also with program OFAC SDN and empty aliases).  Whenever
    [write_csv] returns on such a collection, whatever the surroundings, the
    file it names reads: the header line, then the anchor line
    [Christina Vargas,1995-07-23,AU] (for sanctions followed by
    [,OFAC SDN,]), each ended by carriage return and line feed, then the
    other records; and [write_csv] does return when opening, storing and
    printing do not fail. *)
Theorem anchor_first_of_count (count : Z) (r : RandomSource)
    (filename : string) (e : Os.env) :
  1 <= count ->
  exists customers sanctions r1 r2 rest1 rest2,
    generate_customers count true r = (Ok customers, r1)
    /\ generate_sanctions count true r = (Ok sanctions, r2)
    /\ Z.of_nat (List.length customers) = count
    /\ Z.of_nat (List.length sanctions) = count
    /\ nth_error customers 0
       = Some [("name", "Christina Vargas"); ("date_of_birth", "1995-07-23");
               ("country", "AU")]
    /\ nth_error sanctions 0
       = Some [("name", "Christina Vargas"); ("date_of_birth", "1995-07-23");
               ("country", "AU"); ("program", "OFAC SDN"); ("aliases", "")]
    /\ (forall e',
          Os.write_csv filename customers customer_fieldnames e = (Ok tt, e') ->
          Os.files e' filename
          = Some (line "name,date_of_birth,country"
                    (line "Christina Vargas,1995-07-23,AU" rest1)))
    /\ (forall e',
          Os.write_csv filename sanctions sanction_fieldnames e = (Ok tt, e') ->
          Os.files e' filename
          = Some (line "name,date_of_birth,country,program,aliases"
                    (line "Christina Vargas,1995-07-23,AU,OFAC SDN," rest2)))
    /\ (Os.open_fault e filename = None ->
        (forall text, Os.store_fault e filename text = None) ->
        (forall printed, Os.print_fault e printed = None) ->
        fst (Os.write_csv filename customers customer_fieldnames e) = Ok tt
        /\ fst (Os.write_csv filename sanctions sanction_fieldnames e) = Ok tt).
Proof.
  intros Hcount.
  pose proof (generate_customers_eq count true r) as HC.
  pose proof (generate_sanctions_eq count true r) as HS.
  cbn [customer_prefix sanction_prefix app] in HC, HS.
  set (n := passes count true) in *.
  exists (christina_customer :: customer_rows (tape r) n (cursor r)).
  exists (christina_sanction :: sanction_rows (tape r) n (cursor r)).
  do 2 eexists.
  exists (data_text customer_fieldnames (customer_rows (tape r) n (cursor r))).
  exists (data_text sanction_fieldnames (sanction_rows (tape r) n (cursor r))).
  split; [exact HC|]. split; [exact HS|].
  split.
  { cbn [List.length]. unfold customer_rows. rewrite rows_from_length.
    apply passes_anchor; exact Hcount. }
  split.
  { cbn [List.length]. unfold sanction_rows. rewrite rows_from_length.
    apply passes_anchor; exact Hcount. }
  split; [reflexivity|]. split; [reflexivity|].
  split.
  { intros e' W.
    apply os_write_csv_ok in W; [|apply anchored_customers_fit].
    destruct W as (_ & _ & _ & ->). cbn [Os.files].
    rewrite fs_write_same, customer_file_text. reflexivity. }
  split.
  { intros e' W.
    apply os_write_csv_ok in W; [|apply anchored_sanctions_fit].
    destruct W as (_ & _ & _ & ->). cbn [Os.files].
    rewrite fs_write_same, sanction_file_text. reflexivity. }
  intros O S P. split.
  - rewrite (os_write_csv_no_fault _ _ _ _ (anchored_customers_fit _ _ _) O S P).
    reflexivity.
  - rewrite (os_write_csv_no_fault _ _ _ _ (anchored_sanctions_fit _ _ _) O S P).
    reflexivity.
Qed.

(** C10: for every requested count of zero or less with the anchor flag set,
    neither generator raises; each returns the one-record collection holding
    only the anchor and reads no draw, so the result is neither empty nor of
    the requested length. *)
Theorem nonpositive_count_keeps_anchor (count : Z) (r : RandomSource) :
  count <= 0 ->
  exists customers sanctions,
    generate_customers count true r = (Ok customers, r)
    /\ generate_sanctions count true r = (Ok sanctions, r)
    /\ customers = [christina_customer]
    /\ sanctions = [christina_sanction]
    /\ List.length customers = 1%nat
    /\ List.length sanctions = 1%nat
    /\ Z.of_nat (List.length customers) <> count
    /\ Z.of_nat (List.length sanctions) <> count.
Proof.
  intros H.
  exists [christina_customer], [christina_sanction].
  split; [apply generate_customers_nonpositive; exact H|].
  split; [apply generate_sanctions_nonpositive; exact H|].
  cbn [List.length]. repeat (split; [reflexivity|]). split; lia.
Qed.

(** C2, as the code has it: with a requested count of zero and the anchor
    flag set, every call of either generator, whatever the random source,
    returns without raising the one-record collection that holds the anchor,
    and reads no draw. *)
Theorem zero_count_yields_anchor (r : RandomSource) :
  generate_customers 0 true r = (Ok [christina_customer], r)
  /\ generate_sanctions 0 true r = (Ok [christina_sanction], r).
Proof.
  split.
  - apply generate_customers_nonpositive. lia.
  - apply generate_sanctions_nonpositive. lia.
Qed.

(** C3, as the code has it: for every negative requested count neither
    generator raises; each returns the anchor alone when the anchor flag is
    set and the empty collection otherwise, and reads no draw. *)
Theorem negative_count_not_rejected (count : Z) (include_christina : bool)
    (r : RandomSource) :
  count < 0 ->
  generate_customers count include_christina r
  = (Ok (if include_christina then [christina_customer] else []), r)
  /\ generate_sanctions count include_christina r
     = (Ok (if include_christina then [christina_sanction] else []), r).
Proof.
  intros H.
  destruct (generate_customers_nonpositive count r ltac:(lia)) as [C1 C0].
  destruct (generate_sanctions_nonpositive count r ltac:(lia)) as [S1 S0].
  destruct include_christina; split; assumption.
Qed.

Lemma anchor_first_of_count_witness :
  1 <= 3
  /\ exists customers sanctions r1 r2 rest1 rest2,
       generate_customers 3 true (counting_source 0) = (Ok customers, r1)
       /\ generate_sanctions 3 true (counting_source 0) = (Ok sanctions, r2)
       /\ Z.of_nat (List.length customers) = 3
       /\ Z.of_nat (List.length sanctions) = 3
       /\ nth_error customers 0
          = Some [("name", "Christina Vargas"); ("date_of_birth", "1995-07-23");
                  ("country", "AU")]
       /\ nth_error sanctions 0
          = Some [("name", "Christina Vargas"); ("date_of_birth", "1995-07-23");
                  ("country", "AU"); ("program", "OFAC SDN"); ("aliases", "")]
       /\ (forall e',
             Os.write_csv "client_data_large.csv" customers customer_fieldnames
               (Os.quiet empty_fs) = (Ok tt, e') ->
             Os.files e' "client_data_large.csv"
             = Some (line "name,date_of_birth,country"
                       (line "Christina Vargas,1995-07-23,AU" rest1)))
       /\ (forall e',
             Os.write_csv "client_data_large.csv" sanctions sanction_fieldnames
               (Os.quiet empty_fs) = (Ok tt, e') ->
             Os.files e' "client_data_large.csv"
             = Some (line "name,date_of_birth,country,program,aliases"
                       (line "Christina Vargas,1995-07-23,AU,OFAC SDN," rest2)))
       /\ (Os.open_fault (Os.quiet empty_fs) "client_data_large.csv" = None ->
           (forall text,
              Os.store_fault (Os.quiet empty_fs) "client_data_large.csv" text
              = None) ->
           (forall printed, Os.print_fault (Os.quiet empty_fs) printed = None) ->
           fst (Os.write_csv "client_data_large.csv" customers
                  customer_fieldnames (Os.quiet empty_fs)) = Ok tt
           /\ fst (Os.write_csv "client_data_large.csv" sanctions
                     sanction_fieldnames (Os.quiet empty_fs)) = Ok tt).
Proof.
  split; [lia|].
  apply (anchor_first_of_count 3 (counting_source 0)
           "client_data_large.csv" (Os.quiet empty_fs)).
  lia.
Defined.

Lemma nonpositive_count_keeps_anchor_witness :
  -3 <= 0
  /\ exists customers sanctions,
       generate_customers (-3) true (counting_source 0)
       = (Ok customers, counting_source 0)
       /\ generate_sanctions (-3) true (counting_source 0)
          = (Ok sanctions, counting_source 0)
       /\ customers = [christina_customer]
       /\ sanctions = [christina_sanction]
       /\ List.length customers = 1%nat
       /\ List.length sanctions = 1%nat
       /\ Z.of_nat (List.length customers) <> -3
       /\ Z.of_nat (List.length sanctions) <> -3.
Proof.
  split; [lia|].
  apply (nonpositive_count_keeps_anchor (-3) (counting_source 0)). lia.
Defined.

(** C2 as stated fails: at count zero with the anchor requested the customer
    generator neither raises nor returns an empty collection. *)
Lemma zero_count_counterexample :
  fst (generate_customers 0 true (constant_source 0)) = Ok [christina_customer]
  /\ ~ ((exists e, fst (generate_customers 0 true (constant_source 0)) = Raise e)
        \/ fst (generate_customers 0 true (constant_source 0)) = Ok []).
Proof.
  split; [reflexivity|].
  intros [[e H] | H]; cbn in H; discriminate H.
Qed.

(** C3 as stated fails: at count minus one the customer generator does not
    raise, and with the anchor requested it still produces a record. *)
Lemma negative_count_counterexample :
  fst (generate_customers (-1) true (constant_source 0)) = Ok [christina_customer]
  /\ fst (generate_sanctions (-1) false (constant_source 0)) = Ok []
  /\ ~ (exists e, fst (generate_customers (-1) true (constant_source 0)) = Raise e)
  /\ ~ (exists e, fst (generate_sanctions (-1) false (constant_source 0)) = Raise e).
Proof.
  split; [reflexivity|]. split; [reflexivity|].
  split; intros [e H]; cbn in H; discriminate H.
Qed.

Lemma negative_count_not_rejected_witness :
  -5 < 0
  /\ generate_customers (-5) true (counting_source 0)
     = (Ok [christina_customer], counting_source 0)
  /\ generate_sanctions (-5) true (counting_source 0)
     = (Ok [christina_sanction], counting_source 0).
Proof.
  split; [lia|].
  apply (negative_count_not_rejected (-5) true (counting_source 0)). lia.
Defined.

(* ================================================================== *)
(** ** The anchor is placed, never drawn, never overwritten *)

Lemma passes_without_anchor count :
  passes (count - 1) false = passes count true.
Proof. unfold passes. f_equal. lia. Qed.

(** C6: with the anchor flag set the anchor is element 0; it is not drawn:
    the result is the anchor put in front of what the purely random
    generation of [count - 1] records returns from the same source, which is
    left in the same state; and the filling loop only appends, so whatever
    list it starts from is still the front of its result. *)
Theorem anchor_placed_not_drawn (count : Z) (r : RandomSource) :
  (exists rows r',
     generate_customers (count - 1) false r = (Ok rows, r')
     /\ generate_customers count true r = (Ok (christina_customer :: rows), r')
     /\ nth_error (christina_customer :: rows) 0 = Some christina_customer)
  /\ (exists rows r',
        generate_sanctions (count - 1) false r = (Ok rows, r')
        /\ generate_sanctions count true r = (Ok (christina_sanction :: rows), r')
        /\ nth_error (christina_sanction :: rows) 0 = Some christina_sanction)
  /\ (forall (n : nat) (acc : list record),
        exists rows r',
          for_range n
            (fun customers => row <- customer_row ;; ret (append customers row))
            acc r
          = (Ok (acc ++ rows)%list, r')
          /\ List.length rows = n)
  /\ (forall (n : nat) (acc : list record),
        exists rows r',
          for_range n
            (fun sanctions => row <- sanction_row ;; ret (append sanctions row))
            acc r
          = (Ok (acc ++ rows)%list, r')
          /\ List.length rows = n).
Proof.
  split; [|split; [|split]].
  - do 2 eexists. rewrite !generate_customers_eq.
    rewrite passes_without_anchor. cbn [customer_prefix app].
    split; [reflexivity|]. split; reflexivity.
  - do 2 eexists. rewrite !generate_sanctions_eq.
    rewrite passes_without_anchor. cbn [sanction_prefix app].
    split; [reflexivity|]. split; reflexivity.
  - intros n acc. destruct r as [t c]. do 2 eexists.
    change (fun customers : list record =>
              row <- customer_row ;; ret (append customers row))
      with (push customer_row).
    rewrite (for_range_rows customer_of (fun _ _ => 4%nat) customer_row
               customer_row_eq).
    split; [reflexivity | apply rows_from_length].
  - intros n acc. destruct r as [t c]. do 2 eexists.
    change (fun sanctions : list record =>
              row <- sanction_row ;; ret (append sanctions row))
      with (push sanction_row).
    rewrite (for_range_rows sanction_of sanction_draws sanction_row
               sanction_row_eq).
    split; [reflexivity | apply rows_from_length].
Qed.

(* ================================================================== *)
(** ** Countries and programs come from the pools *)

Lemma customer_of_country t c : country_in_pool (customer_of t c).
Proof.
  eexists. split; [reflexivity|]. apply pick_In, pools_nonempty.
Qed.

Lemma sanction_of_country t c : country_in_pool (sanction_of t c).
Proof.
  eexists. split; [reflexivity|]. apply pick_In, pools_nonempty.
Qed.

Lemma sanction_of_program t c : program_in_pool (sanction_of t c).
Proof.
  eexists. split; [reflexivity|]. apply pick_In, pools_nonempty.
Qed.

Lemma anchor_in_pools :
  country_in_pool christina_customer
  /\ country_in_pool christina_sanction
  /\ program_in_pool christina_sanction.
Proof.
  split; [|split]; eexists; (split; [reflexivity|]); cbn; tauto.
Qed.

(** C7: in every row either generator returns, for any count, flag and
    random source, the country is a member of COUNTRIES, and in every
    sanction row the program is a member of PROGRAMS. *)
Theorem rows_within_pools (count : Z) (include_christina : bool)
    (r : RandomSource) :
  exists customers sanctions r1 r2,
    generate_customers count include_christina r = (Ok customers, r1)
    /\ generate_sanctions count include_christina r = (Ok sanctions, r2)
    /\ Forall country_in_pool customers
    /\ Forall (fun row => country_in_pool row /\ program_in_pool row) sanctions.
Proof.
  do 4 eexists.
  split; [apply generate_customers_eq|]. split; [apply generate_sanctions_eq|].
  split.
  - apply Forall_app. split.
    + destruct include_christina; constructor;
        [apply anchor_in_pools | constructor].
    + apply rows_from_Forall. apply customer_of_country.
  - apply Forall_app. split.
    + destruct include_christina; constructor;
        [split; apply anchor_in_pools | constructor].
    + apply rows_from_Forall. intros c. split.
      * apply sanction_of_country.
      * apply sanction_of_program.
Qed.

(* ================================================================== *)
(** ** The same draws give the same collections *)

Lemma rows_from_agree row_of cost :
  reads_ahead row_of cost ->
  forall n t1 c1 t2 c2,
    (forall i : nat, t1 (c1 + i)%nat = t2 (c2 + i)%nat) ->
    rows_from row_of cost t1 n c1 = rows_from row_of cost t2 n c2
    /\ exists k, cursor_after cost t1 n c1 = (k + c1)%nat
                 /\ cursor_after cost t2 n c2 = (k + c2)%nat.
Proof.
  intros Hloc n. induction n as [|n IH]; intros t1 c1 t2 c2 H.
  - split; [reflexivity|]. exists O. split; reflexivity.
  - cbn [rows_from cursor_after].
    destruct (Hloc _ _ _ _ H) as [E1 E2]. rewrite E1, E2.
    destruct (IH t1 (cost t2 c2 + c1)%nat t2 (cost t2 c2 + c2)%nat) as [R [k [K1 K2]]].
    { intros i.
      replace (cost t2 c2 + c1 + i)%nat with (c1 + (cost t2 c2 + i))%nat by lia.
      replace (cost t2 c2 + c2 + i)%nat with (c2 + (cost t2 c2 + i))%nat by lia.
      apply H. }
    split; [now rewrite R|].
    exists (k + cost t2 c2)%nat. rewrite K1, K2. split; lia.
Qed.

Lemma draws_ahead (t1 : nat -> N) c1 (t2 : nat -> N) c2 :
  (forall i : nat, t1 (c1 + i)%nat = t2 (c2 + i)%nat) ->
  forall k, t1 (k + c1)%nat = t2 (k + c2)%nat.
Proof.
  intros H k. rewrite (Nat.add_comm k c1), (Nat.add_comm k c2). apply H.
Qed.

Lemma customer_of_reads_ahead : reads_ahead customer_of (fun _ _ => 4%nat).
Proof.
  intros t1 c1 t2 c2 H. split; [|reflexivity].
  pose proof (draws_ahead _ _ _ _ H) as D. unfold customer_of.
  rewrite (D 0%nat : t1 c1 = t2 c2).
  rewrite (D 1%nat : t1 (S c1) = t2 (S c2)).
  rewrite (D 2%nat : t1 (S (S c1)) = t2 (S (S c2))).
  rewrite (D 3%nat : t1 (S (S (S c1))) = t2 (S (S (S c2)))).
  reflexivity.
Qed.

Lemma sanction_of_reads_ahead : reads_ahead sanction_of sanction_draws.
Proof.
  intros t1 c1 t2 c2 H.
  pose proof (draws_ahead _ _ _ _ H) as D.
  assert (A : alias_draw t1 c1 = alias_draw t2 c2).
  { unfold alias_draw. now rewrite (D 5%nat). }
  split.
  - unfold sanction_of, alias_of. rewrite A.
    rewrite (D 0%nat : t1 c1 = t2 c2).
    rewrite (D 1%nat : t1 (S c1) = t2 (S c2)).
    rewrite (D 2%nat : t1 (S (S c1)) = t2 (S (S c2))).
    rewrite (D 3%nat : t1 (S (S (S c1))) = t2 (S (S (S c2)))).
    rewrite (D 4%nat), (D 6%nat), (D 7%nat).
    reflexivity.
  - unfold sanction_draws. now rewrite A.
Qed.

(** C9: two calls with the same count and anchor flag on sources that hold
    the same stream of unread draws return the same collection, and leave
    sources that again hold the same stream. *)
Theorem same_draws_same_collections (count : Z) (include_christina : bool)
    (r1 r2 : RandomSource) :
  agree r1 r2 ->
  fst (generate_customers count include_christina r1)
  = fst (generate_customers count include_christina r2)
  /\ agree (snd (generate_customers count include_christina r1))
           (snd (generate_customers count include_christina r2))
  /\ fst (generate_sanctions count include_christina r1)
     = fst (generate_sanctions count include_christina r2)
  /\ agree (snd (generate_sanctions count include_christina r1))
           (snd (generate_sanctions count include_christina r2)).
Proof.
  intros H. unfold agree in H.
  rewrite !generate_customers_eq, !generate_sanctions_eq. cbn [fst snd].
  set (n := passes count include_christina).
  destruct (rows_from_agree _ _ customer_of_reads_ahead n _ _ _ _ H)
    as [RC [kc [C1 C2]]].
  destruct (rows_from_agree _ _ sanction_of_reads_ahead n _ _ _ _ H)
    as [RS [ks [S1 S2]]].
  unfold customer_rows, sanction_rows. rewrite RC, RS.
  split; [reflexivity|]. split.
  { intros i. cbn [tape cursor]. rewrite C1, C2.
    replace (kc + cursor r1 + i)%nat with (cursor r1 + (kc + i))%nat by lia.
    replace (kc + cursor r2 + i)%nat with (cursor r2 + (kc + i))%nat by lia.
    apply H. }
  split; [reflexivity|].
  intros i. cbn [tape cursor]. rewrite S1, S2.
  replace (ks + cursor r1 + i)%nat with (cursor r1 + (ks + i))%nat by lia.
  replace (ks + cursor r2 + i)%nat with (cursor r2 + (ks + i))%nat by lia.
  apply H.
Qed.

Lemma shifted_source_agrees : agree (counting_source 5) shifted_source.
Proof. intros i. cbn [tape cursor counting_source shifted_source]. lia. Qed.

Lemma same_draws_same_collections_witness :
  agree (counting_source 5) shifted_source
  /\ fst (generate_customers 3 true (counting_source 5))
     = fst (generate_customers 3 true shifted_source)
  /\ agree (snd (generate_customers 3 true (counting_source 5)))
           (snd (generate_customers 3 true shifted_source))
  /\ fst (generate_sanctions 3 true (counting_source 5))
     = fst (generate_sanctions 3 true shifted_source)
  /\ agree (snd (generate_sanctions 3 true (counting_source 5)))
           (snd (generate_sanctions 3 true shifted_source)).
Proof.
  split; [exact shifted_source_agrees|].
  apply (same_draws_same_collections 3 true (counting_source 5) shifted_source).
  exact shifted_source_agrees.
Defined.

(* ================================================================== *)
(** ** Dates of birth *)

Lemma anchor_dob_in_bounds : dob_in_bounds "1995-07-23".
Proof.
  exists (Datetime.mkDate 1995 7 23).
  split; [reflexivity|]. split; [reflexivity|].
  unfold default_start_year, default_end_year. cbn. lia.
Qed.

Lemma customer_of_dob t c : dob_ok (customer_of t c).
Proof. eexists. split; [reflexivity | apply date_of_in_bounds]. Qed.

Lemma sanction_of_dob t c : dob_ok (sanction_of t c).
Proof. eexists. split; [reflexivity | apply date_of_in_bounds]. Qed.

Lemma anchor_dob_ok : dob_ok christina_customer /\ dob_ok christina_sanction.
Proof.
  split; (eexists; split; [reflexivity | apply anchor_dob_in_bounds]).
Qed.

Lemma randint_default_span r :
  randint 0 default_span r
  = (Ok (offset_of (tape r (cursor r))), mkSource (tape r) (S (cursor r))).
Proof.
  rewrite randint_eq by (rewrite default_span_value; lia).
  unfold offset_of. rewrite Z.sub_0_r, Z.add_0_l. reflexivity.
Qed.

Lemma dob_ok_literal row : dob_ok row -> dob_from_1940_to_2005 row.
Proof.
  intros (s & G & d & P & V & Y). exists s, d.
  split; [exact G|]. split; [exact P|]. split; [exact V|].
  unfold default_start_year, default_end_year in Y. exact Y.
Qed.

Lemma count_one_value o n : forall a,
  List.length (filter (fun k => Nat.eqb k o) (seq a n))
  = if (a <=? o)%nat && (o <? a + n)%nat then 1%nat else 0%nat.
Proof.
  induction n as [|n IH]; intros a.
  - cbn [seq filter List.length].
    destruct (Nat.leb_spec a o), (Nat.ltb_spec o (a + 0)); cbn [andb];
      try reflexivity; lia.
  - cbn [seq filter]. destruct (Nat.eqb_spec a o) as [->|Hne].
    + cbn [List.length]. rewrite IH.
      destruct (Nat.leb_spec (S o) o); [lia|]. cbn [andb].
      destruct (Nat.leb_spec o o); [|lia].
      destruct (Nat.ltb_spec o (o + S n)); [reflexivity | lia].
    + rewrite IH.
      destruct (Nat.leb_spec (S a) o), (Nat.leb_spec a o),
        (Nat.ltb_spec o (S a + n)), (Nat.ltb_spec o (a + S n));
        cbn [andb]; try reflexivity; lia.
Qed.

Lemma count_residue_block n o : (o < n)%nat -> forall b,
  List.length (filter (fun k => Nat.eqb (k mod n) o) (seq b n)) = 1%nat.
Proof.
  intros Ho. induction b as [|b IH].
  - rewrite (filter_ext_in _ (fun k => Nat.eqb k o)).
    + rewrite count_one_value.
      destruct (Nat.leb_spec 0 o); [|lia]. cbn [andb].
      destruct (Nat.ltb_spec o (0 + n)); [reflexivity | lia].
    + intros k Hk. apply in_seq in Hk. rewrite Nat.mod_small by lia. reflexivity.
  - destruct n as [|n]; [lia|].
    rewrite seq_S, filter_app, length_app.
    cbn [seq filter] in IH. cbn [filter].
    assert (E : ((S b + n) mod S n = b mod S n)%nat).
    { replace (S b + n)%nat with (b + 1 * S n)%nat by lia.
      apply Nat.Div0.mod_add. }
    rewrite E.
    destruct (Nat.eqb (b mod S n) o); cbn [List.length] in *; lia.
Qed.

Lemma count_residue n o : (o < n)%nat -> forall m,
  List.length (filter (fun k => Nat.eqb (k mod n) o) (seq 0 (n * m))) = m.
Proof.
  intros Ho. induction m as [|m IH].
  - rewrite Nat.mul_0_r. reflexivity.
  - replace (n * S m)%nat with (n * m + n)%nat by lia.
    rewrite seq_app, filter_app, length_app, IH.
    rewrite (count_residue_block n o Ho). lia.
Qed.

Lemma residues_equally_frequent (m : nat) (offset : Z) :
  0 <= offset <= 24106 ->
  List.length
    (filter (fun k => Z.of_nat k mod 24107 =? offset)
            (seq 0 (Z.to_nat 24107 * m)))
  = m.
Proof.
  intros H.
  rewrite (filter_ext _
             (fun k => Nat.eqb (k mod Z.to_nat 24107) (Z.to_nat offset))).
  - apply count_residue. lia.
  - intros k.
    assert (E : Z.of_nat k mod 24107 = Z.of_nat (k mod Z.to_nat 24107)).
    { rewrite Nat2Z.inj_mod. rewrite Z2Nat.id by lia. reflexivity. }
    rewrite E.
    destruct (Z.eqb_spec (Z.of_nat (k mod Z.to_nat 24107)) offset) as [Q|Q];
      destruct (Nat.eqb_spec (k mod Z.to_nat 24107) (Z.to_nat offset)) as [Q'|Q'];
      try reflexivity; lia.
Qed.

Lemma offsets_equally_frequent (m : nat) (offset : Z) :
  0 <= offset <= 24106 ->
  List.length
    (filter (fun k =>
               match fst (randint 0 24106 (constant_source (N.of_nat k))) with
               | Ok o => o =? offset
               | Raise _ => false
               end)
            (seq 0 (Z.to_nat 24107 * m)))
  = m.
Proof.
  intros H.
  rewrite (filter_ext _ (fun k => Z.of_nat k mod 24107 =? offset)).
  - apply residues_equally_frequent. exact H.
  - intros k. rewrite randint_eq by lia.
    cbn [fst tape cursor constant_source].
    rewrite nat_N_Z. reflexivity.
Qed.

Lemma date_at_injective o1 o2 :
  0 <= o1 <= default_span -> 0 <= o2 <= default_span ->
  Datetime.strftime (date_at o1) = Datetime.strftime (date_at o2) -> o1 = o2.
Proof.
  intros H1 H2 E.
  destruct (date_at_spec o1 H1) as (P1 & _ & O1).
  destruct (date_at_spec o2 H2) as (P2 & _ & O2).
  rewrite E in P1. rewrite P1 in P2. injection P2 as D.
  rewrite D in O1. rewrite O1 in O2. unfold ordinal_at in O2. lia.
Qed.

Lemma date_of_first : date_of 0 = "1940-01-01"%string.
Proof. vm_compute. reflexivity. Qed.

Lemma date_of_last : date_of 24106 = "2005-12-31"%string.
Proof. vm_compute. reflexivity. Qed.

Lemma date_of_unfold k :
  date_of k = Datetime.strftime (date_at (offset_of k)).
Proof. unfold date_of. exact (eq_refl _). Qed.

Lemma random_date_one_draw (r : RandomSource) :
  exists offset r' d,
    offset = Z.of_N (tape r (cursor r)) mod 24107
    /\ 0 <= offset <= 24106
    /\ randint 0 24106 r = (Ok offset, r')
    /\ d = Datetime.ord2ymd
             (Datetime.ymd2ord (Datetime.mkDate 1940 1 1) + offset)
    /\ random_date 1940 2005 r = (Ok (Datetime.strftime d), r')
    /\ Datetime.parse_iso (Datetime.strftime d) = Some d
    /\ Datetime.valid_date d = true
    /\ 1940 <= Datetime.year d <= 2005
    /\ Datetime.ymd2ord d
       = Datetime.ymd2ord (Datetime.mkDate 1940 1 1) + offset.
Proof.
  pose proof (date_at_spec (offset_of (tape r (cursor r)))
                (offset_of_range _)) as (P & Y & O).
  pose proof (offset_of_range (tape r (cursor r))) as B.
  pose proof (randint_default_span r) as RI.
  pose proof (random_date_eq r) as RD.
  rewrite date_of_unfold in RD.
  exists (offset_of (tape r (cursor r))), (mkSource (tape r) (S (cursor r))),
    (date_at (offset_of (tape r (cursor r)))).
  split; [reflexivity|].
  split; [rewrite default_span_value in B; exact B|].
  split; [exact RI|].
  split; [reflexivity|].
  split; [exact RD|].
  split; [exact P|].
  split; [exact (parse_iso_valid _ _ P)|].
  split; [exact Y | exact O].
Qed.

Lemma random_date_first_and_last :
  fst (random_date 1940 2005 (constant_source 0)) = Ok "1940-01-01"%string
  /\ fst (random_date 1940 2005 (constant_source 24106))
     = Ok "2005-12-31"%string.
Proof.
  split.
  - change (random_date 1940 2005 (constant_source 0))
      with (random_date default_start_year default_end_year (constant_source 0)).
    rewrite (random_date_eq (constant_source 0)).
    cbn [fst tape cursor constant_source]. rewrite date_of_first. reflexivity.
  - change (random_date 1940 2005 (constant_source 24106))
      with (random_date default_start_year default_end_year
              (constant_source 24106)).
    rewrite (random_date_eq (constant_source 24106)).
    cbn [fst tape cursor constant_source]. rewrite date_of_last. reflexivity.
Qed.

Lemma different_offsets_different_dates (o1 o2 : Z) :
  0 <= o1 <= 24106 -> 0 <= o2 <= 24106 ->
  Datetime.strftime
    (Datetime.ord2ymd (Datetime.ymd2ord (Datetime.mkDate 1940 1 1) + o1))
  = Datetime.strftime
      (Datetime.ord2ymd (Datetime.ymd2ord (Datetime.mkDate 1940 1 1) + o2)) ->
  o1 = o2.
Proof.
  intros H1 H2 E. apply (date_at_injective o1 o2);
    [rewrite default_span_value; exact H1
    | rewrite default_span_value; exact H2 | exact E].
Qed.

Lemma generated_dob_in_range (r : RandomSource) (count : Z)
    (include_christina : bool) :
  exists customers sanctions r1 r2,
    generate_customers count include_christina r = (Ok customers, r1)
    /\ generate_sanctions count include_christina r = (Ok sanctions, r2)
    /\ Forall dob_from_1940_to_2005 customers
    /\ Forall dob_from_1940_to_2005 sanctions.
Proof.
  do 4 eexists.
  split; [apply generate_customers_eq|]. split; [apply generate_sanctions_eq|].
  split.
  - apply Forall_app. split.
    + destruct include_christina; constructor;
        [apply dob_ok_literal, anchor_dob_ok | constructor].
    + apply rows_from_Forall. intros c. apply dob_ok_literal, customer_of_dob.
  - apply Forall_app. split.
    + destruct include_christina; constructor;
        [apply dob_ok_literal, anchor_dob_ok | constructor].
    + apply rows_from_Forall. intros c. apply dob_ok_literal, sanction_of_dob.
Qed.

(** C4: the day count from 1940-01-01 to 2005-12-31 is 24106, and
    [random_date()] draws [randint(0, 24106)]: the offset is the raw draw
    modulo 24107.  The result is the [%Y-%m-%d] string of the date that many
    days after 1940-01-01; it reads back as that existing calendar date, with
    its year from 1940 to 2005.  The offsets 0 and 24106 give 1940-01-01 and
    2005-12-31; over the raw draws below any multiple of 24107, [randint]
    returns every offset of [0..24106] equally often (the offset is uniform
    when the raw draw is), and different offsets give different dates.  The
    date of birth of every row of either generator reads back as a date of
    the years 1940 to 2005. *)
Theorem random_date_within_bounds (r : RandomSource) (count : Z)
    (include_christina : bool) :
  Datetime.delta_days (Datetime.mkDate 2005 12 31) (Datetime.mkDate 1940 1 1)
  = 24106
  /\ (exists offset r' d,
        offset = Z.of_N (tape r (cursor r)) mod 24107
        /\ 0 <= offset <= 24106
        /\ randint 0 24106 r = (Ok offset, r')
        /\ d = Datetime.ord2ymd
                 (Datetime.ymd2ord (Datetime.mkDate 1940 1 1) + offset)
        /\ random_date 1940 2005 r = (Ok (Datetime.strftime d), r')
        /\ Datetime.parse_iso (Datetime.strftime d) = Some d
        /\ Datetime.valid_date d = true
        /\ 1940 <= Datetime.year d <= 2005
        /\ Datetime.ymd2ord d
           = Datetime.ymd2ord (Datetime.mkDate 1940 1 1) + offset)
  /\ fst (random_date 1940 2005 (constant_source 0)) = Ok "1940-01-01"%string
  /\ fst (random_date 1940 2005 (constant_source 24106))
     = Ok "2005-12-31"%string
  /\ (forall (m : nat) (offset : Z),
        0 <= offset <= 24106 ->
        List.length
          (filter (fun k =>
                     match fst (randint 0 24106
                                  (constant_source (N.of_nat k))) with
                     | Ok o => o =? offset
                     | Raise _ => false
                     end)
                  (seq 0 (Z.to_nat 24107 * m)))
        = m)
  /\ (forall o1 o2 : Z,
        0 <= o1 <= 24106 -> 0 <= o2 <= 24106 ->
        Datetime.strftime
          (Datetime.ord2ymd (Datetime.ymd2ord (Datetime.mkDate 1940 1 1) + o1))
        = Datetime.strftime
            (Datetime.ord2ymd (Datetime.ymd2ord (Datetime.mkDate 1940 1 1) + o2)) ->
        o1 = o2)
  /\ (exists customers sanctions r1 r2,
        generate_customers count include_christina r = (Ok customers, r1)
        /\ generate_sanctions count include_christina r = (Ok sanctions, r2)
        /\ Forall dob_from_1940_to_2005 customers
        /\ Forall dob_from_1940_to_2005 sanctions).
Proof.
  split; [reflexivity|].
  split; [exact (random_date_one_draw r)|].
  split; [exact (proj1 random_date_first_and_last)|].
  split; [exact (proj2 random_date_first_and_last)|].
  split; [exact offsets_equally_frequent|].
  split; [exact different_offsets_different_dates|].
  exact (generated_dob_in_range r count include_christina).
Qed.

(* ================================================================== *)
(** ** Aliases *)

Lemma float_value_unit (k : N) :
  (k < 2 ^ 53)%N -> (0 <= float_value k)%Q /\ (float_value k < 1)%Q.
Proof.
  intros H. unfold float_value, Qle, Qlt. cbn [Qnum Qden].
  change (Z.pos (2 ^ 53)) with 9007199254740992.
  change (2 ^ 53)%N with 9007199254740992%N in H. lia.
Qed.

(** On every value [random()] can return, comparing the double with the double
    [0.1] and comparing the exact rational with one tenth agree. *)
Lemma float_lt_0_1_exact (k : N) :
  float_lt_0_1 k = true <-> (float_value k < 1 # 10)%Q.
Proof.
  unfold float_lt_0_1, float_value, Qlt. cbn [Qnum Qden].
  change (Z.pos (2 ^ 53)) with 9007199254740992.
  rewrite N.ltb_lt. lia.
Qed.

Lemma alias_draw_unit t c :
  (0 <= float_value (alias_draw t c))%Q /\ (float_value (alias_draw t c) < 1)%Q.
Proof.
  apply float_value_unit. unfold alias_draw. apply N.mod_lt. discriminate.
Qed.

Lemma sanction_rows_passes t n : forall c,
  sanction_passes t c (sanction_rows t n c) (cursor_after sanction_draws t n c).
Proof.
  induction n as [|n IH]; intros c.
  - reflexivity.
  - unfold sanction_rows. cbn [rows_from cursor_after].
    fold (sanction_rows t n (sanction_draws t c + c)).
    specialize (IH (sanction_draws t c + c)%nat).
    cbn [sanction_passes]. cbv zeta. fold (alias_draw t c).
    destruct (alias_draw_unit t c) as [U0 U1].
    pose proof (float_lt_0_1_exact (alias_draw t c)) as X.
    assert (A : dict_get "aliases" (sanction_of t c) = Some (alias_of t c))
      by reflexivity.
    split; [reflexivity|]. split; [reflexivity|]. split; [reflexivity|].
    split; [reflexivity|]. split; [exact U0|]. split; [exact U1|].
    rewrite A. unfold alias_of.
    remember (sanction_draws t c) as k eqn:D. unfold sanction_draws in D.
    destruct (float_lt_0_1 (alias_draw t c)); subst k.
    + left. split; [apply X; reflexivity|]. split; [|exact IH].
      exists (pick FIRST_NAMES (t (6 + c)%nat)), (pick LAST_NAMES (t (7 + c)%nat)).
      split; [reflexivity|]. split; [reflexivity|].
      split; [apply pick_In, pools_nonempty|].
      split; [apply pick_In, pools_nonempty | reflexivity].
    + right. split; [|split; [reflexivity | exact IH]].
      intros L. apply X in L. discriminate L.
Qed.

Lemma float_lt_0_1_count (k : N) :
  float_lt_0_1 k = true <-> (k < 900719925474100)%N.
Proof. unfold float_lt_0_1. rewrite N.ltb_lt. lia. Qed.

(** C5: the records [generate_sanctions] synthesizes are built one after the
    other from the draws of the source, each from its own: five draws give
    name, date of birth, country and program, the sixth is the record's
    uniform real of [[0, 1)], and the aliases field is one name, a given name,
    a space and a family name drawn from the pools by two further draws, when
    that real is below 0.1, and the empty string otherwise; the next record
    starts right after the last draw of this one.  The real is what one call
    of [random()] returns, the draw at the cursor reduced to 53 bits; of the
    [2^53] equally spaced values it can take, the 900719925474100 smallest
    are below 0.1. *)
Theorem alias_follows_own_draw (count : Z) (include_christina : bool)
    (r : RandomSource) :
  exists sanctions r',
    generate_sanctions count include_christina r = (Ok sanctions, r')
    /\ tape r' = tape r
    /\ sanction_passes (tape r) (cursor r)
         (skipn (if include_christina then 1 else 0) sanctions) (cursor r')
    /\ (forall k : N,
          (k < 2 ^ 53)%N ->
          ((float_value k < 1 # 10)%Q <-> (k < 900719925474100)%N))
    /\ (forall r0 : RandomSource,
          random r0
          = (Ok (tape r0 (cursor r0) mod 2 ^ 53)%N,
             mkSource (tape r0) (S (cursor r0)))).
Proof.
  set (n := passes count include_christina).
  do 2 eexists.
  split; [apply generate_sanctions_eq|].
  split; [reflexivity|].
  split.
  { fold n. cbn [tape cursor].
    destruct include_christina; exact (sanction_rows_passes (tape r) n (cursor r)). }
  split.
  { intros k _. rewrite <- float_lt_0_1_exact. apply float_lt_0_1_count. }
  intros r0. reflexivity.
Qed.

(* ================================================================== *)
(** ** Reading back what the writer wrote *)

Lemma string_app_nil_r (s : string) : (s ++ "")%string = s.
Proof. induction s as [|c s IH]; cbn; [reflexivity | now rewrite IH]. Qed.

Lemma string_app_assoc (a b c : string) :
  ((a ++ b) ++ c)%string = (a ++ (b ++ c))%string.
Proof. induction a as [|x a IH]; cbn; [reflexivity | now rewrite IH]. Qed.

Lemma run_app st (s1 s2 : string) :
  Csv.run st (s1 ++ s2) = Csv.run (Csv.run st s1) s2.
Proof. revert st. induction s1 as [|c s1 IH]; intros st; cbn; auto. Qed.

Lemma special_false c :
  Csv.special c = false ->
  Ascii.eqb c Csv.comma = false /\ Ascii.eqb c Csv.dquote = false
  /\ Ascii.eqb c Csv.CR = false /\ Ascii.eqb c Csv.LF = false.
Proof.
  unfold Csv.special. rewrite !orb_false_iff. tauto.
Qed.

Lemma run_plain s : forall f row rows,
  Csv.needs_quotes s = false ->
  Csv.run (Csv.mkP Csv.InField f row rows) s
  = Csv.mkP Csv.InField (f ++ s) row rows.
Proof.
  induction s as [|c s IH]; intros f row rows H.
  - cbn. now rewrite string_app_nil_r.
  - cbn [Csv.needs_quotes] in H. apply orb_false_iff in H. destruct H as [Hc Hs].
    destruct (special_false c Hc) as (E1 & E2 & E3 & E4).
    cbn [Csv.run]. unfold Csv.step. cbn [Csv.p_mode]. rewrite E1, E3, E4.
    unfold Csv.add_char. cbn [Csv.p_field Csv.p_row Csv.p_rows].
    rewrite IH by exact Hs. rewrite string_app_assoc. reflexivity.
Qed.

Lemma run_quoted s : forall f row rows,
  Csv.run (Csv.mkP Csv.InQuoted f row rows)
          (Csv.escape s ++ String Csv.dquote "")
  = Csv.mkP Csv.QuoteInQuoted (f ++ s) row rows.
Proof.
  induction s as [|c s IH]; intros f row rows.
  - cbn. now rewrite string_app_nil_r.
  - cbn [Csv.escape]. destruct (Ascii.eqb c Csv.dquote) eqn:E.
    + apply Ascii.eqb_eq in E. subst c.
      cbn [String.append Csv.run]. unfold Csv.step at 2. cbn [Csv.p_mode].
      rewrite Ascii.eqb_refl. unfold Csv.step at 1. cbn [Csv.p_mode].
      rewrite Ascii.eqb_refl. unfold Csv.add_char.
      cbn [Csv.p_field Csv.p_row Csv.p_rows].
      rewrite IH. rewrite string_app_assoc. reflexivity.
    + cbn [String.append Csv.run]. unfold Csv.step at 1. cbn [Csv.p_mode].
      rewrite E. unfold Csv.add_char. cbn [Csv.p_field Csv.p_row Csv.p_rows].
      rewrite IH. rewrite string_app_assoc. reflexivity.
Qed.

Lemma run_field m s row rows :
  m = Csv.StartField \/ m = Csv.StartRecord ->
  field_read m s row rows (Csv.run (Csv.mkP m "" row rows) (Csv.field_text s)).
Proof.
  intros Hm. unfold Csv.field_text. destruct (Csv.needs_quotes s) eqn:Q.
  - cbn [Csv.run].
    assert (E : Csv.step (Csv.mkP m "" row rows) Csv.dquote
                = Csv.mkP Csv.InQuoted "" row rows)
      by (destruct Hm; subst m; reflexivity).
    rewrite E, run_quoted. cbn [String.append]. constructor.
  - destruct s as [|c s].
    + cbn. apply read_nothing. reflexivity.
    + cbn [Csv.needs_quotes] in Q. apply orb_false_iff in Q. destruct Q as [Hc Hs].
      destruct (special_false c Hc) as (E1 & E2 & E3 & E4).
      cbn [Csv.run].
      assert (E : Csv.step (Csv.mkP m "" row rows) c
                  = Csv.mkP Csv.InField (String c "") row rows).
      { destruct Hm; subst m; unfold Csv.step; cbn [Csv.p_mode];
          unfold Csv.start_record, Csv.start_field; rewrite ?E1, ?E2, ?E3, ?E4;
          reflexivity. }
      rewrite E, run_plain by exact Hs. cbn [String.append].
      apply read_plain. discriminate.
Qed.

Lemma comma_after_field m s row rows st :
  m = Csv.StartField \/ m = Csv.StartRecord ->
  field_read m s row rows st ->
  Csv.step st Csv.comma = Csv.mkP Csv.StartField "" (row ++ [s])%list rows.
Proof.
  intros Hm H. destruct H as [ | _ | -> ]; [reflexivity | reflexivity |].
  destruct Hm; subst m; reflexivity.
Qed.

Lemma line_end_after_field s row rows st :
  field_read Csv.StartField s row rows st ->
  Csv.run st Csv.CRLF = Csv.mkP Csv.StartRecord "" [] (rows ++ [(row ++ [s])%list])%list.
Proof.
  intros H. destruct H as [ | _ | -> ]; reflexivity.
Qed.

Lemma line_end_after_first_field s rows st :
  Csv.field_text s <> ""%string ->
  field_read Csv.StartRecord s [] rows st ->
  Csv.run st Csv.CRLF = Csv.mkP Csv.StartRecord "" [] (rows ++ [[s]])%list.
Proof.
  intros Hne H. destruct H as [ | _ | -> ]; [reflexivity | reflexivity |].
  exfalso. apply Hne. reflexivity.
Qed.

(** Fields after the first of a record, up to the line end. *)
Lemma run_more_fields fields : forall row rows,
  fields <> [] ->
  Csv.run (Csv.mkP Csv.StartField "" row rows)
          (Csv.join_fields fields ++ Csv.CRLF)
  = Csv.mkP Csv.StartRecord "" [] (rows ++ [(row ++ fields)%list])%list.
Proof.
  induction fields as [|f rest IH]; intros row rows Hne; [congruence|].
  destruct rest as [|g rest].
  - cbn [Csv.join_fields]. rewrite run_app.
    apply line_end_after_field. apply run_field. now left.
  - change (Csv.join_fields (f :: g :: rest))
      with (Csv.field_text f ++ String Csv.comma (Csv.join_fields (g :: rest)))%string.
    rewrite string_app_assoc, run_app. cbn [String.append Csv.run].
    rewrite (comma_after_field Csv.StartField f row rows) by
      (try (now left); apply run_field; now left).
    rewrite IH by discriminate.
    rewrite <- app_assoc. reflexivity.
Qed.

(** One written record, read from the start of a record. *)
Lemma run_row_text fields rows :
  Csv.run (Csv.mkP Csv.StartRecord "" [] rows) (Csv.row_text fields)
  = Csv.mkP Csv.StartRecord "" [] (rows ++ [fields])%list.
Proof.
  unfold Csv.row_text. destruct fields as [|f rest]; [reflexivity|].
  destruct rest as [|g rest].
  - cbn [Csv.join_fields]. destruct (Csv.field_text f) eqn:T.
    + assert (f = ""%string) as ->.
      { unfold Csv.field_text in T. destruct (Csv.needs_quotes f);
          [discriminate T | exact T]. }
      reflexivity.
    + rewrite <- T. rewrite run_app.
      apply line_end_after_first_field; [rewrite T; discriminate|].
      apply run_field. now right.
  - change (Csv.join_fields (f :: g :: rest))
      with (Csv.field_text f ++ String Csv.comma (Csv.join_fields (g :: rest)))%string.
    assert (B : forall a b : string,
               match (a ++ String Csv.comma b)%string with
               | EmptyString => String Csv.dquote (String Csv.dquote "")
               | String _ _ => (a ++ String Csv.comma b)%string
               end = (a ++ String Csv.comma b)%string)
      by (intros [|x a] b; reflexivity).
    rewrite B. rewrite string_app_assoc, run_app. cbn [String.append Csv.run].
    rewrite (comma_after_field Csv.StartRecord f [] rows) by
      (try (now right); apply run_field; now right).
    rewrite run_more_fields by discriminate. reflexivity.
Qed.

Lemma run_records_text records : forall rows,
  Csv.run (Csv.mkP Csv.StartRecord "" [] rows) (records_text records)
  = Csv.mkP Csv.StartRecord "" [] (rows ++ records)%list.
Proof.
  induction records as [|fields rest IH]; intros rows.
  - cbn. now rewrite app_nil_r.
  - cbn [records_text]. rewrite run_app, run_row_text, IH.
    rewrite <- app_assoc. reflexivity.
Qed.

Lemma parse_records_text records :
  Csv.parse_csv (records_text records) = records.
Proof.
  unfold Csv.parse_csv, Csv.initial. rewrite run_records_text. reflexivity.
Qed.

Lemma data_text_records fieldnames data :
  data_text fieldnames data
  = records_text (map (Csv.row_fields fieldnames) data).
Proof.
  induction data as [|row rest IH]; cbn; [reflexivity | now rewrite IH].
Qed.

(** *** Dictionaries rebuilt from a row *)

Lemma dict_get_set k key v d :
  dict_get k (dict_set key v d)
  = if String.eqb k key then Some v else dict_get k d.
Proof.
  induction d as [|[k0 w] d IH]; cbn [dict_set dict_get]; [reflexivity|].
  destruct (String.eqb key k0) eqn:E0.
  - apply String.eqb_eq in E0. subst k0. cbn [dict_get].
    destruct (String.eqb k key); reflexivity.
  - cbn [dict_get]. rewrite IH.
    destruct (String.eqb k k0) eqn:E1; [|reflexivity].
    apply String.eqb_eq in E1. subst k0.
    rewrite (String.eqb_sym k key), E0. reflexivity.
Qed.

Lemma dict_get_fold (f : string -> string) k keys : forall d,
  dict_get k
    (fold_left (fun d kv => dict_set (fst kv) (snd kv) d)
               (combine keys (map f keys)) d)
  = if existsb (String.eqb k) keys then Some (f k) else dict_get k d.
Proof.
  induction keys as [|a keys IH]; intros d; [reflexivity|].
  cbn [map combine fold_left fst snd existsb]. rewrite IH, dict_get_set.
  destruct (existsb (String.eqb k) keys); [now rewrite orb_true_r|].
  rewrite orb_false_r. destruct (String.eqb k a) eqn:E; [|reflexivity].
  apply String.eqb_eq in E. now subst a.
Qed.

Lemma existsb_eqb_In k keys :
  existsb (String.eqb k) keys = true <-> In k keys.
Proof.
  rewrite existsb_exists. split.
  - intros [x [Hx E]]. apply String.eqb_eq in E. now subst x.
  - intros H. exists k. split; [exact H | apply String.eqb_refl].
Qed.

Lemma dict_get_None k d : dict_get k d = None <-> ~ In k (dict_keys d).
Proof.
  induction d as [|[k0 w] d IH]; cbn [dict_get dict_keys map fst In].
  - tauto.
  - destruct (String.eqb k k0) eqn:E.
    + apply String.eqb_eq in E. subst k0. split; [discriminate | tauto].
    + apply String.eqb_neq in E. fold (dict_keys d). rewrite IH.
      split; [intros H [H'|H']; [congruence | tauto] | tauto].
Qed.

Lemma shape_no_wrong_fields fieldnames row :
  has_shape fieldnames row -> Csv.wrong_fields fieldnames row = [].
Proof.
  intros H. unfold Csv.wrong_fields.
  assert (A : forall keys, (forall k, In k keys -> In k fieldnames) ->
              filter (fun k => negb (existsb (String.eqb k) fieldnames)) keys = []).
  { induction keys as [|a keys IH]; intros Hk; [reflexivity|].
    cbn [filter].
    assert (E : existsb (String.eqb a) fieldnames = true)
      by (apply existsb_eqb_In, Hk; now left).
    rewrite E. cbn [negb]. apply IH. intros k Hin. apply Hk. now right. }
  apply A. intros k Hk. apply H. exact Hk.
Qed.

Lemma read_back_row fieldnames row :
  has_shape fieldnames row ->
  forall k,
    dict_get k (Csv.dict_of_row fieldnames (Csv.row_fields fieldnames row))
    = dict_get k row.
Proof.
  intros H k. unfold Csv.dict_of_row, Csv.row_fields.
  rewrite dict_get_fold. cbn [dict_get].
  destruct (existsb (String.eqb k) fieldnames) eqn:E.
  - apply existsb_eqb_In in E. apply H in E.
    unfold Csv.get_or_restval.
    destruct (dict_get k row) eqn:G; [reflexivity|].
    apply dict_get_None in G. contradiction.
  - symmetry. apply dict_get_None. intros Hin. apply H in Hin.
    apply existsb_eqb_In in Hin. congruence.
Qed.

(** C8: a collection whose records all have the shape of [fieldnames] is
    written without error; the file then holds the header and one line per
    record; splitting it back gives the header row and every record's values
    in field order; and reading it with the same field order gives as many
    records as were written, each equal to its original field for field. *)
Theorem write_then_read_back (filename : string) (data : list record)
    (fieldnames : list string) (fs : filesystem) :
  (forall row, In row data -> has_shape fieldnames row) ->
  exists text parsed,
    write_csv filename data fieldnames fs = (Ok tt, fs_write fs filename text)
    /\ fs_write fs filename text filename = Some text
    /\ Csv.parse_csv text
       = fieldnames :: map (Csv.row_fields fieldnames) data
    /\ Csv.read_csv fieldnames text = Some parsed
    /\ List.length parsed = List.length data
    /\ forall i row row',
         nth_error data i = Some row ->
         nth_error parsed i = Some row' ->
         forall k, dict_get k row' = dict_get k row.
Proof.
  intros Hshape.
  exists (records_text (fieldnames :: map (Csv.row_fields fieldnames) data)).
  exists (map (Csv.dict_of_row fieldnames)
              (map (Csv.row_fields fieldnames) data)).
  split.
  { rewrite write_csv_ok.
    - rewrite data_text_records. reflexivity.
    - apply Forall_forall. intros row Hin.
      apply shape_no_wrong_fields, Hshape, Hin. }
  split; [apply fs_write_same|].
  split; [apply parse_records_text|].
  split; [unfold Csv.read_csv; rewrite parse_records_text; reflexivity|].
  split; [now rewrite !length_map|].
  intros i row row' Hrow Hrow' k.
  rewrite map_map in Hrow'. rewrite nth_error_map, Hrow in Hrow'.
  cbn in Hrow'. injection Hrow' as <-.
  apply read_back_row. apply Hshape. eapply nth_error_In. exact Hrow.
Qed.

Lemma sample_data_shape :
  forall row, In row sample_data -> has_shape sample_fieldnames row.
Proof.
  intros row [<-|[<-|[]]] k; cbn; tauto.
Qed.

Example sample_data_read_back :
  exists text,
    snd (write_csv "out.csv" sample_data sample_fieldnames empty_fs) "out.csv"
    = Some text
    /\ Csv.read_csv sample_fieldnames text
       = Some [[("name", "Vargas, Christina");
                ("aliases", String Csv.dquote ("CV" ++ String Csv.dquote ""))];
               [("name", String Csv.CR (String Csv.LF "Blake"));
                ("aliases", "")]].
Proof. eexists. split; reflexivity. Qed.

Lemma write_then_read_back_witness :
  (forall row, In row sample_data -> has_shape sample_fieldnames row)
  /\ exists text parsed,
       write_csv "out.csv" sample_data sample_fieldnames empty_fs
       = (Ok tt, fs_write empty_fs "out.csv" text)
       /\ fs_write empty_fs "out.csv" text "out.csv" = Some text
       /\ Csv.parse_csv text
          = sample_fieldnames :: map (Csv.row_fields sample_fieldnames) sample_data
       /\ Csv.read_csv sample_fieldnames text = Some parsed
       /\ List.length parsed = List.length sample_data
       /\ forall i row row',
            nth_error sample_data i = Some row ->
            nth_error parsed i = Some row' ->
            forall k, dict_get k row' = dict_get k row.
Proof.
  split; [exact sample_data_shape|].
  apply (write_then_read_back "out.csv" sample_data sample_fieldnames empty_fs).
  exact sample_data_shape.
Defined.

(* ================================================================== *)
(** ** Further properties of the generators *)

Lemma passes_max count include_christina :
  Z.of_nat (List.length (customer_prefix include_christina) + passes count include_christina)
  = Z.max count (if include_christina then 1 else 0).
Proof. unfold passes, range_len. destruct include_christina; cbn; lia. Qed.

(** X1: for every count and either flag, neither generator raises, and the
    collection has [max(count, 1)] records with the anchor and
    [max(count, 0)] without it. *)
Theorem collection_length (count : Z) (include_christina : bool)
    (r : RandomSource) :
  exists customers sanctions r1 r2,
    generate_customers count include_christina r = (Ok customers, r1)
    /\ generate_sanctions count include_christina r = (Ok sanctions, r2)
    /\ Z.of_nat (List.length customers)
       = Z.max count (if include_christina then 1 else 0)
    /\ Z.of_nat (List.length sanctions)
       = Z.max count (if include_christina then 1 else 0).
Proof.
  do 4 eexists.
  split; [apply generate_customers_eq|]. split; [apply generate_sanctions_eq|].
  split.
  - rewrite length_app. unfold customer_rows. rewrite rows_from_length.
    apply passes_max.
  - rewrite length_app. unfold sanction_rows. rewrite rows_from_length.
    rewrite <- (passes_max count include_christina).
    destruct include_christina; reflexivity.
Qed.

Lemma rows_from_extend row_of cost t n1 : forall n2 c,
  (n1 <= n2)%nat ->
  exists rest,
    rows_from row_of cost t n2 c = (rows_from row_of cost t n1 c ++ rest)%list.
Proof.
  induction n1 as [|n1 IH]; intros n2 c H.
  - eexists. reflexivity.
  - destruct n2 as [|n2]; [lia|]. cbn [rows_from].
    destruct (IH n2 (cost t c + c)%nat ltac:(lia)) as [rest E].
    exists rest. rewrite E. reflexivity.
Qed.

Lemma passes_le count1 count2 include_christina :
  count1 <= count2 ->
  (passes count1 include_christina <= passes count2 include_christina)%nat.
Proof. intros H. unfold passes, range_len. lia. Qed.

(** X2: from the same source and with the same flag, the collection for a
    smaller count is the front of the collection for a larger count. *)
Theorem smaller_count_is_prefix (count1 count2 : Z) (include_christina : bool)
    (r : RandomSource) :
  count1 <= count2 ->
  exists customers1 customers2 sanctions1 sanctions2 more_customers more_sanctions,
    fst (generate_customers count1 include_christina r) = Ok customers1
    /\ fst (generate_customers count2 include_christina r) = Ok customers2
    /\ customers2 = (customers1 ++ more_customers)%list
    /\ fst (generate_sanctions count1 include_christina r) = Ok sanctions1
    /\ fst (generate_sanctions count2 include_christina r) = Ok sanctions2
    /\ sanctions2 = (sanctions1 ++ more_sanctions)%list.
Proof.
  intros H. pose proof (passes_le _ _ include_christina H) as P.
  destruct (rows_from_extend customer_of (fun _ _ => 4%nat) (tape r) _ _
              (cursor r) P) as [mc EC].
  destruct (rows_from_extend sanction_of sanction_draws (tape r) _ _
              (cursor r) P) as [ms ES].
  do 4 eexists. exists mc, ms.
  rewrite !generate_customers_eq, !generate_sanctions_eq. cbn [fst].
  split; [reflexivity|]. split; [reflexivity|].
  split; [unfold customer_rows; rewrite EC; apply app_assoc|].
  split; [reflexivity|]. split; [reflexivity|].
  unfold sanction_rows. rewrite ES. apply app_assoc.
Qed.

Lemma smaller_count_is_prefix_witness :
  2 <= 4
  /\ exists customers1 customers2 sanctions1 sanctions2 more_customers more_sanctions,
       fst (generate_customers 2 true (counting_source 0)) = Ok customers1
       /\ fst (generate_customers 4 true (counting_source 0)) = Ok customers2
       /\ customers2 = (customers1 ++ more_customers)%list
       /\ fst (generate_sanctions 2 true (counting_source 0)) = Ok sanctions1
       /\ fst (generate_sanctions 4 true (counting_source 0)) = Ok sanctions2
       /\ sanctions2 = (sanctions1 ++ more_sanctions)%list.
Proof.
  split; [lia|].
  apply (smaller_count_is_prefix 2 4 true (counting_source 0)). lia.
Defined.

Lemma cursor_after_customers t n : forall c,
  cursor_after (fun _ _ => 4%nat) t n c = (4 * n + c)%nat.
Proof.
  induction n as [|n IH]; intros c; cbn [cursor_after]; [lia|].
  rewrite IH. lia.
Qed.

Lemma cursor_after_sanctions t n : forall c,
  (6 * n + c <= cursor_after sanction_draws t n c <= 8 * n + c)%nat.
Proof.
  induction n as [|n IH]; intros c; cbn [cursor_after]; [lia|].
  specialize (IH (sanction_draws t c + c)%nat).
  assert (6 <= sanction_draws t c <= 8)%nat
    by (unfold sanction_draws; destruct (float_lt_0_1 _); lia).
  lia.
Qed.

Lemma name_of_eqb_empty a b : String.eqb (name_of a b) "" = false.
Proof. unfold name_of. destruct (pick FIRST_NAMES a); reflexivity. Qed.

Lemma sanction_of_has_alias t c :
  has_alias (sanction_of t c) = float_lt_0_1 (alias_draw t c).
Proof.
  change (has_alias (sanction_of t c))
    with (negb (String.eqb (alias_of t c) "")).
  unfold alias_of. destruct (float_lt_0_1 (alias_draw t c));
    [now rewrite name_of_eqb_empty | reflexivity].
Qed.

Lemma cursor_after_aliases t n : forall c,
  cursor_after sanction_draws t n c
  = (6 * n + 2 * List.length (filter has_alias (sanction_rows t n c)) + c)%nat.
Proof.
  induction n as [|n IH]; intros c; cbn [cursor_after]; [reflexivity|].
  rewrite IH. unfold sanction_rows. cbn [rows_from filter].
  rewrite sanction_of_has_alias. unfold sanction_draws.
  destruct (float_lt_0_1 (alias_draw t c)); cbn [List.length]; lia.
Qed.

(** X3: a call leaves the tape as it is and moves the cursor past the draws
    it read: exactly four for each synthesized customer; six for each
    synthesized sanction and two more for each one that carries an alias, so
    between six and eight each. *)
Theorem draws_read (count : Z) (include_christina : bool) (r : RandomSource) :
  let n := Z.to_nat (count - (if include_christina then 1 else 0)) in
  exists customers sanctions r1 r2,
    generate_customers count include_christina r = (Ok customers, r1)
    /\ generate_sanctions count include_christina r = (Ok sanctions, r2)
    /\ tape r1 = tape r
    /\ cursor r1 = (4 * n + cursor r)%nat
    /\ tape r2 = tape r
    /\ cursor r2
       = (6 * n + 2 * List.length (filter has_alias sanctions) + cursor r)%nat
    /\ (6 * n + cursor r <= cursor r2 <= 8 * n + cursor r)%nat.
Proof.
  cbv zeta. do 4 eexists.
  split; [apply generate_customers_eq|]. split; [apply generate_sanctions_eq|].
  cbn [tape cursor].
  fold (range_len (count - (if include_christina then 1 else 0))).
  fold (passes count include_christina).
  split; [reflexivity|]. split; [apply cursor_after_customers|].
  split; [reflexivity|].
  split; [|apply cursor_after_sanctions].
  rewrite cursor_after_aliases, filter_app.
  assert (P : filter has_alias (sanction_prefix include_christina) = [])
    by (destruct include_christina; reflexivity).
  rewrite P. reflexivity.
Qed.

Lemma anchor_name_composed :
  name_composed christina_customer /\ name_composed christina_sanction.
Proof.
  split; exists "Christina"%string, "Vargas"%string;
    (split; [apply existsb_eqb_In; reflexivity|]);
    (split; [apply existsb_eqb_In; reflexivity | reflexivity]).
Qed.

Lemma name_of_composed a b :
  exists given family,
    In given FIRST_NAMES /\ In family LAST_NAMES
    /\ name_of a b = (given ++ " " ++ family)%string.
Proof.
  exists (pick FIRST_NAMES a), (pick LAST_NAMES b).
  split; [apply pick_In, pools_nonempty|].
  split; [apply pick_In, pools_nonempty | reflexivity].
Qed.

Lemma customer_of_name t c : name_composed (customer_of t c).
Proof.
  destruct (name_of_composed (t c) (t (S c))) as (g & f & Hg & Hf & E).
  exists g, f. split; [exact Hg|]. split; [exact Hf|].
  rewrite <- E. reflexivity.
Qed.

Lemma sanction_of_name t c : name_composed (sanction_of t c).
Proof.
  destruct (name_of_composed (t c) (t (S c))) as (g & f & Hg & Hf & E).
  exists g, f. split; [exact Hg|]. split; [exact Hf|].
  rewrite <- E. reflexivity.
Qed.

(** X4: in every row either generator returns, the anchor included, the name
    is a member of FIRST_NAMES, one space and a member of LAST_NAMES. *)
Theorem names_from_pools (count : Z) (include_christina : bool)
    (r : RandomSource) :
  exists customers sanctions r1 r2,
    generate_customers count include_christina r = (Ok customers, r1)
    /\ generate_sanctions count include_christina r = (Ok sanctions, r2)
    /\ Forall name_composed customers
    /\ Forall name_composed sanctions.
Proof.
  do 4 eexists.
  split; [apply generate_customers_eq|]. split; [apply generate_sanctions_eq|].
  split.
  - apply Forall_app. split.
    + destruct include_christina; constructor;
        [apply anchor_name_composed | constructor].
    + apply rows_from_Forall. apply customer_of_name.
  - apply Forall_app. split.
    + destruct include_christina; constructor;
        [apply anchor_name_composed | constructor].
    + apply rows_from_Forall. apply sanction_of_name.
Qed.

Lemma year_text_four y : 1000 <= y -> Datetime.year_text y = Datetime.pad4 y.
Proof.
  intros H. unfold Datetime.year_text.
  destruct (Z.ltb_spec y 10); [lia|].
  destruct (Z.ltb_spec y 100); [lia|].
  destruct (Z.ltb_spec y 1000); [lia | reflexivity].
Qed.

Lemma strftime_length d :
  1000 <= Datetime.year d -> String.length (Datetime.strftime d) = 10%nat.
Proof.
  intros H. unfold Datetime.strftime. rewrite (year_text_four _ H). reflexivity.
Qed.

Lemma date_of_length k : String.length (date_of k) = 10%nat.
Proof.
  destruct (date_at_spec (offset_of k) (offset_of_range k)) as (_ & Y & _).
  unfold date_of. apply strftime_length.
  unfold default_start_year in Y. lia.
Qed.

Lemma pool_forallb (p : string -> bool) (pool : list string) k :
  pool <> [] -> forallb p pool = true -> p (pick pool k) = true.
Proof.
  intros Hne H. rewrite forallb_forall in H. apply H. apply pick_In. exact Hne.
Qed.

Lemma name_of_not_empty a b : name_of a b <> ""%string.
Proof.
  unfold name_of. destruct (pick FIRST_NAMES a); discriminate.
Qed.

Lemma country_length k : String.length (pick COUNTRIES k) = 2%nat.
Proof.
  apply Nat.eqb_eq.
  apply (pool_forallb (fun s => Nat.eqb (String.length s) 2) COUNTRIES k);
    [apply pools_nonempty | reflexivity].
Qed.

Lemma program_not_empty k : pick PROGRAMS k <> ""%string.
Proof.
  pose proof (pool_forallb (fun s => negb (String.eqb s "")) PROGRAMS k
                (proj2 (proj2 (proj2 pools_nonempty))) eq_refl) as H.
  intros E. rewrite E in H. discriminate H.
Qed.

Lemma customer_of_layout t c : customer_layout (customer_of t c).
Proof.
  do 3 eexists. split; [reflexivity|].
  split; [apply name_of_not_empty|].
  split; [apply date_of_length | apply country_length].
Qed.

Lemma sanction_of_layout t c : sanction_layout (sanction_of t c).
Proof.
  do 5 eexists. split; [reflexivity|].
  split; [apply name_of_not_empty|].
  split; [apply date_of_length|].
  split; [apply country_length | apply program_not_empty].
Qed.

Lemma anchor_layout :
  customer_layout christina_customer /\ sanction_layout christina_sanction.
Proof.
  split.
  - do 3 eexists. split; [reflexivity|].
    split; [discriminate|]. split; reflexivity.
  - do 5 eexists. split; [reflexivity|].
    split; [discriminate|]. split; [reflexivity|].
    split; [reflexivity | discriminate].
Qed.

(** X5: every customer either flag gives is a dictionary of exactly name,
    date_of_birth and country, in this order, and every sanction one of these
    three followed by program and aliases; the name and the program are never
    empty, the date has ten characters and the country two. *)
Theorem rows_have_layout (count : Z) (include_christina : bool)
    (r : RandomSource) :
  exists customers sanctions r1 r2,
    generate_customers count include_christina r = (Ok customers, r1)
    /\ generate_sanctions count include_christina r = (Ok sanctions, r2)
    /\ Forall customer_layout customers
    /\ Forall sanction_layout sanctions.
Proof.
  do 4 eexists.
  split; [apply generate_customers_eq|]. split; [apply generate_sanctions_eq|].
  split.
  - apply Forall_app. split.
    + destruct include_christina; constructor;
        [apply anchor_layout | constructor].
    + apply rows_from_Forall. apply customer_of_layout.
  - apply Forall_app. split.
    + destruct include_christina; constructor;
        [apply anchor_layout | constructor].
    + apply rows_from_Forall. apply sanction_of_layout.
Qed.

(* ================================================================== *)
(** ** The generated files need no quoting *)

Lemma needs_quotes_app (a b : string) :
  Csv.needs_quotes (a ++ b) = Csv.needs_quotes a || Csv.needs_quotes b.
Proof.
  induction a as [|x a IH]; cbn [String.append Csv.needs_quotes];
    [reflexivity | now rewrite IH, orb_assoc].
Qed.

Lemma pick_plain (pool : list string) k :
  pool <> [] ->
  forallb (fun s => negb (Csv.needs_quotes s)) pool = true ->
  Csv.needs_quotes (pick pool k) = false.
Proof.
  intros Hne H.
  pose proof (pool_forallb _ pool k Hne H) as P. cbv beta in P.
  now apply negb_true_iff in P.
Qed.

Lemma name_of_plain a b : Csv.needs_quotes (name_of a b) = false.
Proof.
  unfold name_of. rewrite !needs_quotes_app.
  rewrite (pick_plain FIRST_NAMES a (proj1 pools_nonempty) eq_refl).
  rewrite (pick_plain LAST_NAMES b (proj1 (proj2 pools_nonempty)) eq_refl).
  reflexivity.
Qed.

Lemma digit_plain n : Csv.special (Datetime.digit n) = false.
Proof.
  unfold Datetime.digit.
  pose proof (Z.mod_pos_bound n 10 ltac:(lia)) as B.
  assert (L : (Z.to_nat (n mod 10) < 10)%nat) by lia.
  destruct (Z.to_nat (n mod 10)) as [|[|[|[|[|[|[|[|[|[|m]]]]]]]]]];
    try reflexivity.
  lia.
Qed.

Lemma strftime_plain d : Csv.needs_quotes (Datetime.strftime d) = false.
Proof.
  unfold Datetime.strftime, Datetime.year_text, Datetime.pad4, Datetime.pad2.
  destruct (Datetime.year d <? 10); [|destruct (Datetime.year d <? 100);
    [|destruct (Datetime.year d <? 1000)]];
    cbn [String.append Csv.needs_quotes]; rewrite !digit_plain; reflexivity.
Qed.

Lemma alias_of_plain t c : Csv.needs_quotes (alias_of t c) = false.
Proof.
  unfold alias_of. destruct (float_lt_0_1 _);
    [apply name_of_plain | reflexivity].
Qed.

Lemma plain_field_text v : Csv.needs_quotes v = false -> Csv.field_text v = v.
Proof. intros H. unfold Csv.field_text. now rewrite H. Qed.

Lemma body_with_comma (a b : string) :
  match (a ++ String Csv.comma b)%string with
  | EmptyString => String Csv.dquote (String Csv.dquote "")
  | String _ _ => (a ++ String Csv.comma b)%string
  end = (a ++ String Csv.comma b)%string.
Proof. destruct a; reflexivity. Qed.

Lemma plain_customer_line n d c :
  Csv.needs_quotes n = false -> Csv.needs_quotes d = false ->
  Csv.needs_quotes c = false ->
  Csv.row_text [n; d; c] = (n ++ "," ++ d ++ "," ++ c ++ Csv.CRLF)%string.
Proof.
  intros Hn Hd Hc. unfold Csv.row_text. cbn [Csv.join_fields].
  rewrite !plain_field_text by assumption.
  rewrite body_with_comma. rewrite !string_app_assoc. cbn [String.append].
  rewrite !string_app_assoc. reflexivity.
Qed.

Lemma plain_sanction_line n d c p a :
  Csv.needs_quotes n = false -> Csv.needs_quotes d = false ->
  Csv.needs_quotes c = false -> Csv.needs_quotes p = false ->
  Csv.needs_quotes a = false ->
  Csv.row_text [n; d; c; p; a]
  = (n ++ "," ++ d ++ "," ++ c ++ "," ++ p ++ "," ++ a ++ Csv.CRLF)%string.
Proof.
  intros Hn Hd Hc Hp Ha. unfold Csv.row_text. cbn [Csv.join_fields].
  rewrite !plain_field_text by assumption.
  rewrite body_with_comma. rewrite !string_app_assoc. cbn [String.append].
  rewrite !string_app_assoc. cbn [String.append].
  rewrite !string_app_assoc. cbn [String.append].
  rewrite !string_app_assoc. reflexivity.
Qed.

Lemma customer_of_line t c : customer_line_plain (customer_of t c).
Proof.
  do 3 eexists. split; [reflexivity|].
  change (Csv.row_fields customer_fieldnames (customer_of t c))
    with [name_of (t c) (t (S c)); date_of (t (S (S c)));
          pick COUNTRIES (t (S (S (S c))))].
  apply plain_customer_line;
    [apply name_of_plain | apply strftime_plain |].
  apply pick_plain; [apply pools_nonempty | reflexivity].
Qed.

Lemma sanction_of_line t c : sanction_line_plain (sanction_of t c).
Proof.
  do 5 eexists. split; [reflexivity|].
  change (Csv.row_fields sanction_fieldnames (sanction_of t c))
    with [name_of (t c) (t (S c)); date_of (t (S (S c)));
          pick COUNTRIES (t (S (S (S c)))); pick PROGRAMS (t (4 + c)%nat);
          alias_of t c].
  apply plain_sanction_line;
    [apply name_of_plain | apply strftime_plain | | | apply alias_of_plain].
  - apply pick_plain; [apply pools_nonempty | reflexivity].
  - apply pick_plain; [apply pools_nonempty | reflexivity].
Qed.

Lemma anchor_line :
  customer_line_plain christina_customer
  /\ sanction_line_plain christina_sanction.
Proof.
  split.
  - do 3 eexists. split; reflexivity.
  - do 5 eexists. split; reflexivity.
Qed.

(** X6: no value of a generated row holds a comma, a quote or a line break,
    so [write_csv] writes every row of either generator, under the script's
    field order, as its values joined by commas and ended by the line
    terminator, without any quoting. *)
Theorem generated_lines_plain (count : Z) (include_christina : bool)
    (r : RandomSource) :
  exists customers sanctions r1 r2,
    generate_customers count include_christina r = (Ok customers, r1)
    /\ generate_sanctions count include_christina r = (Ok sanctions, r2)
    /\ Forall customer_line_plain customers
    /\ Forall sanction_line_plain sanctions.
Proof.
  do 4 eexists.
  split; [apply generate_customers_eq|]. split; [apply generate_sanctions_eq|].
  split.
  - apply Forall_app. split.
    + destruct include_christina; constructor;
        [apply anchor_line | constructor].
    + apply rows_from_Forall. apply customer_of_line.
  - apply Forall_app. split.
    + destruct include_christina; constructor;
        [apply anchor_line | constructor].
    + apply rows_from_Forall. apply sanction_of_line.
Qed.

(* ================================================================== *)
(** ** [random_date] on any pair of years *)

Lemma days_before_year_step y :
  Datetime.days_before_year (y + 1)
  = Datetime.days_before_year y + 365
    + (if Datetime.is_leap y then 1 else 0).
Proof.
  unfold Datetime.days_before_year, Datetime.is_leap. cbv zeta.
  replace (y + 1 - 1) with y by lia.
  destruct (Z.eqb_spec (y mod 4) 0) as [H4|H4];
    destruct (Z.eqb_spec (y mod 100) 0) as [H100|H100];
    destruct (Z.eqb_spec (y mod 400) 0) as [H400|H400];
    cbn [andb orb negb];
    Z.div_mod_to_equations; lia.
Qed.

Lemma days_before_year_mono a b :
  a <= b -> Datetime.days_before_year a <= Datetime.days_before_year b.
Proof.
  intros H. unfold Datetime.days_before_year. cbv zeta.
  Z.div_mod_to_equations. lia.
Qed.

Lemma ordinal_of_first_day y :
  Datetime.ymd2ord (Datetime.mkDate y 1 1) = Datetime.days_before_year y + 1.
Proof.
  unfold Datetime.ymd2ord, Datetime.days_before_month.
  cbn [Datetime.year Datetime.month Datetime.day].
  change (nth (Z.to_nat 1) Datetime.DAYS_BEFORE_MONTH 0) with 0.
  change (2 <? 1) with false. cbn [andb]. lia.
Qed.

Lemma ordinal_of_last_day y :
  Datetime.ymd2ord (Datetime.mkDate y 12 31)
  = Datetime.days_before_year (y + 1).
Proof.
  rewrite days_before_year_step.
  unfold Datetime.ymd2ord, Datetime.days_before_month.
  cbn [Datetime.year Datetime.month Datetime.day].
  change (nth (Z.to_nat 12) Datetime.DAYS_BEFORE_MONTH 0) with 334.
  change (2 <? 12) with true. cbn [andb]. lia.
Qed.

Lemma first_day_valid y :
  Datetime.valid_date (Datetime.mkDate y 1 1) = (1 <=? y) && (y <=? 9999).
Proof.
  unfold Datetime.valid_date, Datetime.days_in_month.
  cbn [Datetime.year Datetime.month Datetime.day].
  change (1 =? 2) with false. cbn [andb].
  change (nth (Z.to_nat 1) Datetime.DAYS_IN_MONTH 0) with 31.
  change (1 <=? 1) with true. change (1 <=? 12) with true.
  change (1 <=? 31) with true.
  rewrite !andb_true_r. reflexivity.
Qed.

Lemma last_day_valid y :
  Datetime.valid_date (Datetime.mkDate y 12 31) = (1 <=? y) && (y <=? 9999).
Proof.
  unfold Datetime.valid_date, Datetime.days_in_month.
  cbn [Datetime.year Datetime.month Datetime.day].
  change (12 =? 2) with false. cbn [andb].
  change (nth (Z.to_nat 12) Datetime.DAYS_IN_MONTH 0) with 31.
  change (1 <=? 12) with true. change (12 <=? 12) with true.
  change (1 <=? 31) with true. change (31 <=? 31) with true.
  rewrite !andb_true_r. reflexivity.
Qed.

Lemma fits_c_int_literal y :
  Datetime.fits_c_int y = (-2147483648 <=? y) && (y <? 2147483648).
Proof. reflexivity. Qed.

Lemma make_first_day y :
  Datetime.make y 1 1
  = if negb ((-2147483648 <=? y) && (y <? 2147483648)) then Raise OverflowError
    else if (1 <=? y) && (y <=? 9999) then Ok (Datetime.mkDate y 1 1)
    else Raise ValueError.
Proof.
  unfold Datetime.make. rewrite first_day_valid, fits_c_int_literal.
  change (Datetime.fits_c_int 1) with true. rewrite !andb_true_r.
  reflexivity.
Qed.

Lemma make_last_day y :
  Datetime.make y 12 31
  = if negb ((-2147483648 <=? y) && (y <? 2147483648)) then Raise OverflowError
    else if (1 <=? y) && (y <=? 9999) then Ok (Datetime.mkDate y 12 31)
    else Raise ValueError.
Proof.
  unfold Datetime.make. rewrite last_day_valid, fits_c_int_literal.
  change (Datetime.fits_c_int 12) with true.
  change (Datetime.fits_c_int 31) with true. rewrite !andb_true_r.
  reflexivity.
Qed.

(** X7: [random_date(start_year, end_year)] on any two integers.  The two
    [datetime(...)] calls come first, the one for [start_year] before the one
    for [end_year]: a year that is no C [int] (outside [-2^31, 2^31)) raises
    OverflowError, a year outside 1..9999 raises ValueError.  With both years
    accepted, [end_year < start_year] makes [randint] raise ValueError (an
    empty range).  In each of these cases no draw is read.  Otherwise the call
    reads one draw and returns the [%Y-%m-%d] string of the day
    [randint(0, span)] days after January 1 of [start_year], [span] being the
    day count up to December 31 of [end_year], and the offset lies in
    [0..span].  [%Y] does not pad: in the year 1 the string is [1-01-01]. *)
Theorem random_date_any_years (start_year end_year : Z) (r : RandomSource) :
  let c_int := fun y => (-2147483648 <=? y) && (y <? 2147483648) in
  let supported := fun y => (1 <=? y) && (y <=? 9999) in
  let first := Datetime.mkDate start_year 1 1 in
  let span := Datetime.delta_days (Datetime.mkDate end_year 12 31) first in
  let offset := Z.of_N (tape r (cursor r)) mod (span + 1) in
  random_date start_year end_year r
  = (if negb (c_int start_year) then (Raise OverflowError, r)
     else if negb (supported start_year) then (Raise ValueError, r)
     else if negb (c_int end_year) then (Raise OverflowError, r)
     else if negb (supported end_year) then (Raise ValueError, r)
     else if end_year <? start_year then (Raise ValueError, r)
     else (Ok (Datetime.strftime
                 (Datetime.ord2ymd (Datetime.ymd2ord first + offset))),
           mkSource (tape r) (S (cursor r))))
  /\ (supported start_year && supported end_year
      && (start_year <=? end_year) = true -> 0 <= offset <= span)
  /\ random_date 1 1 (constant_source 0)
     = (Ok "1-01-01"%string, mkSource (tape (constant_source 0)) 1)
  /\ random_date 999 1000 (constant_source 365)
     = (Ok "1000-01-01"%string, mkSource (tape (constant_source 365)) 1).
Proof.
  cbv zeta beta. unfold Datetime.delta_days.
  rewrite ordinal_of_last_day, ordinal_of_first_day.
  set (span := Datetime.days_before_year (end_year + 1)
               - (Datetime.days_before_year start_year + 1)).
  assert (Hspan : start_year <= end_year -> 0 <= span).
  { intros H. unfold span.
    pose proof (days_before_year_step start_year) as S1.
    pose proof (days_before_year_mono (start_year + 1) (end_year + 1) ltac:(lia)).
    destruct (Datetime.is_leap start_year); lia. }
  assert (Hneg : end_year < start_year -> span < 0).
  { intros H. unfold span.
    pose proof (days_before_year_mono (end_year + 1) start_year ltac:(lia)). lia. }
  split; [|split; [|split; reflexivity]].
  2:{ intros C. rewrite !andb_true_iff, !Z.leb_le in C.
      pose proof (Z.mod_pos_bound (Z.of_N (tape r (cursor r))) (span + 1)
                    ltac:(lia)). lia. }
  unfold random_date. unfold bind at 1, lift at 1. rewrite make_first_day.
  destruct ((-2147483648 <=? start_year) && (start_year <? 2147483648));
    cbn [negb]; [|reflexivity].
  destruct (Z.leb_spec 1 start_year) as [S1|S1]; cbn [andb negb]; [|reflexivity].
  destruct (Z.leb_spec start_year 9999) as [S2|S2]; cbn [negb]; [|reflexivity].
  unfold bind at 1, lift at 1. rewrite make_last_day.
  destruct ((-2147483648 <=? end_year) && (end_year <? 2147483648));
    cbn [negb]; [|reflexivity].
  destruct (Z.leb_spec 1 end_year) as [E1|E1]; cbn [andb negb]; [|reflexivity].
  destruct (Z.leb_spec end_year 9999) as [E2|E2]; cbn [negb]; [|reflexivity].
  unfold Datetime.delta_days.
  rewrite ordinal_of_last_day, ordinal_of_first_day. fold span.
  destruct (Z.ltb_spec end_year start_year) as [S3|S3].
  - unfold bind at 1, randint.
    destruct (Z.leb_spec 0 span); [specialize (Hneg S3); lia|].
    reflexivity.
  - rewrite (bind_ok _ _ _ _ _ (randint_eq 0 span r (Hspan S3))).
    rewrite Z.sub_0_r, Z.add_0_l.
    pose proof (Z.mod_pos_bound (Z.of_N (tape r (cursor r))) (span + 1)
                  ltac:(specialize (Hspan S3); lia)) as B.
    set (offset := Z.of_N (tape r (cursor r)) mod (span + 1)) in *.
    unfold bind at 1, lift at 1. unfold Datetime.add_days.
    rewrite ordinal_of_first_day.
    assert (L : 1 <= Datetime.days_before_year start_year + 1).
    { pose proof (days_before_year_mono 1 start_year S1) as M.
      change (Datetime.days_before_year 1) with 0 in M. lia. }
    assert (U : Datetime.days_before_year (end_year + 1) <= Datetime.MAXORDINAL).
    { pose proof (days_before_year_mono (end_year + 1) 10000 ltac:(lia)) as M.
      change (Datetime.days_before_year 10000) with 3652059 in M.
      change Datetime.MAXORDINAL with 3652059. exact M. }
    destruct (Z.ltb_spec 0 (Datetime.days_before_year start_year + 1 + offset));
      [|lia].
    destruct (Z.leb_spec (Datetime.days_before_year start_year + 1 + offset)
                Datetime.MAXORDINAL); [|unfold span in B; lia].
    reflexivity.
Qed.

Example random_date_reversed_years :
  random_date 2005 1940 (counting_source 7) = (Raise ValueError, counting_source 7).
Proof. reflexivity. Qed.

Example random_date_one_year :
  random_date 2024 2024 (counting_source 59)
  = (Ok "2024-02-29"%string, mkSource (tape (counting_source 59)) 1).
Proof. reflexivity. Qed.

Example random_date_year_beyond_c_int :
  random_date 1940 2147483648 (counting_source 7)
  = (Raise OverflowError, counting_source 7).
Proof. reflexivity. Qed.

(* ================================================================== *)
(** ** The filling can draw the anchor's values *)

Lemma anchor_customer_rows n : forall c,
  anchor_customer_tape c = 40%N ->
  anchor_customer_tape (S c) = 50%N ->
  anchor_customer_tape (S (S c)) = 20292%N ->
  anchor_customer_tape (S (S (S c))) = 3%N ->
  Forall (eq christina_customer) (customer_rows anchor_customer_tape n c).
Proof.
  induction n as [|n IH]; intros c H0 H1 H2 H3; [constructor|].
  unfold customer_rows. cbn [rows_from]. constructor.
  - unfold customer_of. rewrite H0, H1, H2, H3. vm_compute. reflexivity.
  - apply IH; assumption.
Qed.

Lemma anchor_sanction_rows n : forall c,
  anchor_sanction_tape c = 40%N ->
  anchor_sanction_tape (S c) = 50%N ->
  anchor_sanction_tape (S (S c)) = 20292%N ->
  anchor_sanction_tape (S (S (S c))) = 3%N ->
  anchor_sanction_tape (4 + c) = 0%N ->
  anchor_sanction_tape (5 + c) = (2 ^ 52)%N ->
  Forall (eq christina_sanction) (sanction_rows anchor_sanction_tape n c).
Proof.
  induction n as [|n IH]; intros c H0 H1 H2 H3 H4 H5; [constructor|].
  unfold sanction_rows. cbn [rows_from].
  assert (D : sanction_draws anchor_sanction_tape c = 6%nat).
  { unfold sanction_draws, alias_draw. rewrite H5. reflexivity. }
  constructor.
  - unfold sanction_of, alias_of, alias_draw. rewrite H0, H1, H2, H3, H4, H5.
    vm_compute. reflexivity.
  - rewrite D. apply IH; assumption.
Qed.

(** X8: the filling does not keep clear of the anchor: there are random
    sources on which, for every count and either flag, every customer,
    respectively every sanction, that is returned equals the anchor record. *)
Theorem filling_can_repeat_anchor :
  exists r_customers r_sanctions,
    forall (count : Z) (include_christina : bool),
    exists customers sanctions,
      fst (generate_customers count include_christina r_customers) = Ok customers
      /\ Forall (eq christina_customer) customers
      /\ fst (generate_sanctions count include_christina r_sanctions) = Ok sanctions
      /\ Forall (eq christina_sanction) sanctions.
Proof.
  exists (mkSource anchor_customer_tape 0), (mkSource anchor_sanction_tape 0).
  intros count include_christina. do 2 eexists.
  rewrite generate_customers_eq, generate_sanctions_eq. cbn [fst tape cursor].
  split; [reflexivity|]. split.
  { apply Forall_app. split.
    - destruct include_christina; repeat constructor.
    - apply anchor_customer_rows; reflexivity. }
  split; [reflexivity|].
  apply Forall_app. split.
  - destruct include_christina; repeat constructor.
  - apply anchor_sanction_rows; reflexivity.
Qed.

(* ================================================================== *)
(** ** What [write_csv] does with rows that do not fit *)

Lemma no_wrong_fields_iff fieldnames row :
  Csv.wrong_fields fieldnames row = []
  <-> (forall k, In k (dict_keys row) -> In k fieldnames).
Proof.
  unfold Csv.wrong_fields. split.
  - intros H k Hk.
    destruct (existsb (String.eqb k) fieldnames) eqn:E;
      [now apply existsb_eqb_In|].
    assert (I : In k (filter (fun k => negb (existsb (String.eqb k) fieldnames))
                             (dict_keys row))).
    { apply filter_In. split; [exact Hk | now rewrite E]. }
    rewrite H in I. destruct I.
  - intros H. induction (dict_keys row) as [|a keys IH]; [reflexivity|].
    cbn [filter].
    assert (E : existsb (String.eqb a) fieldnames = true)
      by (apply existsb_eqb_In, H; now left).
    rewrite E. cbn [negb]. apply IH. intros k Hk. apply H. now right.
Qed.

Lemma rows_text_error_iff fieldnames data :
  snd (Csv.rows_text fieldnames data) = None
  <-> Forall (fun row => Csv.wrong_fields fieldnames row = []) data.
Proof.
  induction data as [|row rest IH]; cbn [Csv.rows_text].
  - split; [constructor | reflexivity].
  - unfold Csv.dict_to_list.
    destruct (Csv.wrong_fields fieldnames row) eqn:W.
    + destruct (Csv.rows_text fieldnames rest) as [text err]. cbn [snd] in *.
      rewrite IH. split; [now constructor | now inversion 1].
    + cbv iota beta. cbn [snd].
      split; [discriminate | inversion 1; congruence].
Qed.

Lemma rows_text_stops fieldnames good bad rest :
  Forall (fun row => Csv.wrong_fields fieldnames row = []) good ->
  Csv.wrong_fields fieldnames bad <> [] ->
  Csv.rows_text fieldnames (good ++ bad :: rest)
  = (data_text fieldnames good, Some ValueError).
Proof.
  intros Hgood Hbad. induction Hgood as [|row good Hrow _ IH].
  - cbn [app Csv.rows_text data_text]. unfold Csv.dict_to_list.
    destruct (Csv.wrong_fields fieldnames bad); [congruence | reflexivity].
  - cbn [app Csv.rows_text data_text]. unfold Csv.dict_to_list.
    rewrite Hrow, IH. reflexivity.
Qed.

Lemma os_write_csv_wrong filename good bad rest fieldnames e :
  Forall (fun row => Csv.wrong_fields fieldnames row = []) good ->
  Csv.wrong_fields fieldnames bad <> [] ->
  Os.write_csv filename (good ++ bad :: rest) fieldnames e
  = match Os.open_fault e filename with
    | Some x => (Raise x, e)
    | None =>
        match Os.store_fault e filename
                (Csv.header_text fieldnames ++ data_text fieldnames good) with
        | Some k =>
            (Raise OSError,
             Os.mkEnv
               (fs_write (Os.files e) filename
                  (substring 0 k
                     (Csv.header_text fieldnames ++ data_text fieldnames good)))
               (Os.stdout e) (Os.open_fault e) (Os.store_fault e)
               (Os.print_fault e))
        | None =>
            (Raise ValueError,
             Os.mkEnv
               (fs_write (Os.files e) filename
                  (Csv.header_text fieldnames ++ data_text fieldnames good))
               (Os.stdout e) (Os.open_fault e) (Os.store_fault e)
               (Os.print_fault e))
        end
    end.
Proof.
  intros Hgood Hbad. unfold Os.write_csv.
  rewrite (rows_text_stops _ _ _ _ Hgood Hbad).
  destruct (Os.open_fault e filename); [reflexivity|].
  destruct (Os.store_fault e filename _); reflexivity.
Qed.

(** X9: when some record has a key that is not a field name, the records
    before the first such record are written and no record after them.  If
    [open] raises, that error is raised and nothing has changed.  Otherwise
    the named file is replaced: when the text is stored, by the header line
    and the lines of the records before the wrong one, and ValueError is
    raised; when the device fails, by a part of that text, and OSError is
    raised.  Every other file is as it was and nothing is printed. *)
Theorem write_csv_stops_at_wrong_row (filename : string)
    (good : list record) (bad : record) (rest : list record)
    (fieldnames : list string) (e : Os.env) :
  (forall row, In row good ->
     forall k, In k (dict_keys row) -> In k fieldnames) ->
  (exists k, In k (dict_keys bad) /\ ~ In k fieldnames) ->
  let written :=
    (Csv.header_text fieldnames ++ data_text fieldnames good)%string in
  (forall x, Os.open_fault e filename = Some x ->
     Os.write_csv filename (good ++ bad :: rest) fieldnames e = (Raise x, e))
  /\ (Os.open_fault e filename = None ->
      exists e',
        Os.write_csv filename (good ++ bad :: rest) fieldnames e
        = (match Os.store_fault e filename written with
           | Some _ => Raise OSError
           | None => Raise ValueError
           end, e')
        /\ Os.files e' filename
           = Some (match Os.store_fault e filename written with
                   | Some k => substring 0 k written
                   | None => written
                   end)
        /\ (forall name, name <> filename -> Os.files e' name = Os.files e name)
        /\ Os.stdout e' = Os.stdout e).
Proof.
  intros Hgood [k [Hk Hout]]. cbv zeta.
  assert (G : Forall (fun row => Csv.wrong_fields fieldnames row = []) good).
  { apply Forall_forall. intros row Hin. apply no_wrong_fields_iff.
    apply Hgood. exact Hin. }
  assert (B : Csv.wrong_fields fieldnames bad <> []).
  { intros W. apply Hout.
    apply (proj1 (no_wrong_fields_iff fieldnames bad) W). exact Hk. }
  rewrite (os_write_csv_wrong filename good bad rest fieldnames e G B).
  split.
  - intros x O. rewrite O. reflexivity.
  - intros O. rewrite O.
    destruct (Os.store_fault e filename _) as [n|]; eexists;
      (split; [reflexivity|]); cbn [Os.files Os.stdout];
      (split; [apply fs_write_same|]);
      (split; [|reflexivity]); intros name N; apply fs_write_other; exact N.
Qed.

Lemma write_csv_stops_at_wrong_row_witness :
  (forall row, In row [christina_customer] ->
     forall k, In k (dict_keys row) -> In k customer_fieldnames)
  /\ (exists k, In k (dict_keys christina_sanction)
                /\ ~ In k customer_fieldnames)
  /\ (forall x, Os.open_fault (Os.quiet empty_fs) "client_data_large.csv" = Some x ->
        Os.write_csv "client_data_large.csv"
          ([christina_customer] ++ christina_sanction :: [christina_customer])
          customer_fieldnames (Os.quiet empty_fs)
        = (Raise x, Os.quiet empty_fs))
  /\ (Os.open_fault (Os.quiet empty_fs) "client_data_large.csv" = None ->
      exists e',
        Os.write_csv "client_data_large.csv"
          ([christina_customer] ++ christina_sanction :: [christina_customer])
          customer_fieldnames (Os.quiet empty_fs)
        = (Raise ValueError, e')
        /\ Os.files e' "client_data_large.csv"
           = Some (line "name,date_of_birth,country"
                     (line "Christina Vargas,1995-07-23,AU" ""))
        /\ (forall name, name <> "client_data_large.csv"%string ->
              Os.files e' name = Os.files (Os.quiet empty_fs) name)
        /\ Os.stdout e' = Os.stdout (Os.quiet empty_fs)).
Proof.
  assert (G : forall row, In row [christina_customer] ->
                forall k, In k (dict_keys row) -> In k customer_fieldnames).
  { intros row [<-|[]] k Hk. exact Hk. }
  assert (B : exists k, In k (dict_keys christina_sanction)
                        /\ ~ In k customer_fieldnames).
  { exists "program"%string. split; [cbn; tauto|].
    cbn. intros [H|[H|[H|[]]]]; discriminate H. }
  split; [exact G|]. split; [exact B|].
  exact (write_csv_stops_at_wrong_row "client_data_large.csv"
           [christina_customer] christina_sanction [christina_customer]
           customer_fieldnames (Os.quiet empty_fs) G B).
Defined.

Lemma keys_fit_iff fieldnames data :
  Forall (fun row => Csv.wrong_fields fieldnames row = []) data
  <-> (forall row, In row data ->
         forall k, In k (dict_keys row) -> In k fieldnames).
Proof.
  rewrite Forall_forall. split.
  - intros H row Hin. apply no_wrong_fields_iff. apply H. exact Hin.
  - intros H row Hin. apply no_wrong_fields_iff. apply H. exact Hin.
Qed.

Lemma os_write_csv_ok_fit filename data fieldnames e :
  fst (Os.write_csv filename data fieldnames e) = Ok tt ->
  Forall (fun row => Csv.wrong_fields fieldnames row = []) data.
Proof.
  unfold Os.write_csv. intros H. apply rows_text_error_iff.
  destruct (Os.open_fault e filename); [discriminate H|].
  destruct (Csv.rows_text fieldnames data) as [text err].
  destruct (Os.store_fault e filename _); [discriminate H|].
  destruct err; [discriminate H | reflexivity].
Qed.

(** X10: [write_csv] returns without error exactly when [open] does not
    raise, every key of every record is one of the field names (a record
    that lacks a field name is no error), the text is stored in full, and
    printing the report does not raise.  The named file then holds the header
    line and one line per record, every other file is as it was, and one
    line has been printed: a check mark, then [Generated], the file name,
    [with], the number of records and [records]. *)
Theorem write_csv_succeeds_iff (filename : string) (data : list record)
    (fieldnames : list string) (e : Os.env) :
  (fst (Os.write_csv filename data fieldnames e) = Ok tt
   <-> (Os.open_fault e filename = None
        /\ (forall row, In row data ->
              forall k, In k (dict_keys row) -> In k fieldnames)
        /\ Os.store_fault e filename
             (Csv.header_text fieldnames ++ data_text fieldnames data) = None
        /\ Os.print_fault e (Os.report filename (List.length data)) = None))
  /\ (forall e',
        Os.write_csv filename data fieldnames e = (Ok tt, e') ->
        Os.files e' filename
        = Some (Csv.header_text fieldnames ++ data_text fieldnames data)%string
        /\ (forall name, name <> filename -> Os.files e' name = Os.files e name)
        /\ Os.stdout e'
           = (Os.stdout e ++ [Os.report filename (List.length data)])%list)
  /\ Os.report "client_data_large.csv" 1000
     = (String "226" (String "156" (String "133"
          " Generated client_data_large.csv with 1000 records")))
  /\ Csv.header_text ["name"; "date_of_birth"; "country"]
     = line "name,date_of_birth,country" "".
Proof.
  split; [|split; [|split; reflexivity]].
  - split.
    + intros H. pose proof (os_write_csv_ok_fit _ _ _ _ H) as F.
      rewrite (os_write_csv_cases _ _ _ _ F) in H.
      destruct (Os.open_fault e filename); [discriminate H|].
      destruct (Os.store_fault e filename _); [discriminate H|].
      destruct (Os.print_fault e _); [discriminate H|].
      split; [reflexivity|]. split; [apply keys_fit_iff; exact F|].
      split; reflexivity.
    + intros (O & F & S & P). apply keys_fit_iff in F.
      rewrite (os_write_csv_cases _ _ _ _ F), O, S, P. reflexivity.
  - intros e' W.
    assert (F : Forall (fun row => Csv.wrong_fields fieldnames row = []) data)
      by (apply (os_write_csv_ok_fit filename _ _ e); now rewrite W).
    destruct (os_write_csv_ok _ _ _ _ _ F W) as (_ & _ & _ & ->).
    cbn [Os.files Os.stdout].
    split; [apply fs_write_same|].
    split; [|reflexivity]. intros name N. apply fs_write_other. exact N.
Qed.

Lemma write_csv_ok_inv filename data fieldnames fs :
  fst (write_csv filename data fieldnames fs) = Ok tt ->
  Forall (fun row => Csv.wrong_fields fieldnames row = []) data.
Proof.
  rewrite write_csv_quiet. cbn [fst]. intros H. apply rows_text_error_iff.
  destruct (snd (Csv.rows_text fieldnames data));
    [discriminate H | reflexivity].
Qed.

Lemma written_text filename data fieldnames fs text :
  fst (write_csv filename data fieldnames fs) = Ok tt ->
  snd (write_csv filename data fieldnames fs) filename = Some text ->
  text = records_text (fieldnames :: map (Csv.row_fields fieldnames) data).
Proof.
  intros Hok Htext. apply write_csv_ok_inv in Hok.
  rewrite (write_csv_ok _ _ _ _ Hok) in Htext. cbn [snd] in Htext.
  rewrite fs_write_same, data_text_records in Htext.
  injection Htext as <-. reflexivity.
Qed.

(** X11: nothing is lost in writing: when two calls of [write_csv] both
    succeed and leave the same text in their files, they were given the same
    field names and, record by record, the same value for every field name. *)
Theorem written_text_determines_values
    (filename1 filename2 : string) (data1 data2 : list record)
    (fieldnames1 fieldnames2 : list string) (fs1 fs2 : filesystem)
    (text : string) :
  fst (write_csv filename1 data1 fieldnames1 fs1) = Ok tt ->
  snd (write_csv filename1 data1 fieldnames1 fs1) filename1 = Some text ->
  fst (write_csv filename2 data2 fieldnames2 fs2) = Ok tt ->
  snd (write_csv filename2 data2 fieldnames2 fs2) filename2 = Some text ->
  fieldnames1 = fieldnames2
  /\ map (Csv.row_fields fieldnames1) data1
     = map (Csv.row_fields fieldnames2) data2.
Proof.
  intros O1 T1 O2 T2.
  pose proof (written_text _ _ _ _ _ O1 T1) as E1.
  pose proof (written_text _ _ _ _ _ O2 T2) as E2.
  assert (P : Csv.parse_csv text = Csv.parse_csv text) by reflexivity.
  rewrite E1 in P at 1. rewrite E2 in P at 1.
  rewrite !parse_records_text in P.
  injection P as F D. split; assumption.
Qed.

Lemma written_text_determines_values_witness :
  fst (write_csv "a.csv" sample_data sample_fieldnames empty_fs) = Ok tt
  /\ snd (write_csv "a.csv" sample_data sample_fieldnames empty_fs) "a.csv"
     = Some (Csv.header_text sample_fieldnames
             ++ data_text sample_fieldnames sample_data)%string
  /\ fst (write_csv "b.csv" sample_data_reordered sample_fieldnames empty_fs)
     = Ok tt
  /\ snd (write_csv "b.csv" sample_data_reordered sample_fieldnames empty_fs)
       "b.csv"
     = Some (Csv.header_text sample_fieldnames
             ++ data_text sample_fieldnames sample_data)%string
  /\ sample_fieldnames = sample_fieldnames
  /\ map (Csv.row_fields sample_fieldnames) sample_data
     = map (Csv.row_fields sample_fieldnames) sample_data_reordered.
Proof.
  split; [reflexivity|]. split; [reflexivity|].
  split; [reflexivity|]. split; [reflexivity|].
  apply (written_text_determines_values "a.csv" "b.csv"
           sample_data sample_data_reordered
           sample_fieldnames sample_fieldnames empty_fs empty_fs
           (Csv.header_text sample_fieldnames
            ++ data_text sample_fieldnames sample_data)%string);
    reflexivity.
Defined.

Lemma customer_of_under_sanction_order t c :
  customer_under_sanction_order (customer_of t c).
Proof. do 3 eexists. split; reflexivity. Qed.

Lemma anchor_under_sanction_order :
  customer_under_sanction_order christina_customer.
Proof. do 3 eexists. split; reflexivity. Qed.

Lemma customer_rows_fit_sanction_order t n c :
  Forall (fun row => Csv.wrong_fields sanction_fieldnames row = [])
         (customer_rows t n c).
Proof. apply rows_from_Forall. intros c'. reflexivity. Qed.

Lemma sanction_has_wrong_field row :
  sanction_layout row -> Csv.wrong_fields customer_fieldnames row <> [].
Proof.
  intros (n & d & c & p & a & -> & _). discriminate.
Qed.

Lemma line_app (text rest more : string) :
  (line text rest ++ more)%string = line text (rest ++ more)%string.
Proof.
  unfold line. rewrite string_app_assoc. reflexivity.
Qed.

Lemma data_text_lines fieldnames (f : record -> string) rows :
  Forall (fun row => Csv.row_text (Csv.row_fields fieldnames row)
                     = line (f row) "") rows ->
  data_text fieldnames rows = lines (map f rows).
Proof.
  induction 1 as [|row rows Hrow _ IH]; [reflexivity|].
  cbn [data_text map lines]. rewrite Hrow, IH, line_app. reflexivity.
Qed.

Lemma customer_as_sanction_row n d c :
  Csv.needs_quotes n = false -> Csv.needs_quotes d = false ->
  Csv.needs_quotes c = false ->
  Csv.row_text
    (Csv.row_fields sanction_fieldnames
       [("name", n); ("date_of_birth", d); ("country", c)])
  = line (customer_as_sanction_line
            [("name", n); ("date_of_birth", d); ("country", c)]) "".
Proof.
  intros Hn Hd Hc.
  change (Csv.row_fields sanction_fieldnames
            [("name", n); ("date_of_birth", d); ("country", c)])
    with [n; d; c; ""%string; ""%string].
  change (customer_as_sanction_line
            [("name", n); ("date_of_birth", d); ("country", c)])
    with (n ++ "," ++ d ++ "," ++ c ++ ",,")%string.
  rewrite (plain_sanction_line n d c "" "" Hn Hd Hc eq_refl eq_refl).
  unfold line. repeat (rewrite ?string_app_assoc; cbn [String.append]).
  reflexivity.
Qed.

Lemma customer_of_as_sanction t c :
  Csv.row_text (Csv.row_fields sanction_fieldnames (customer_of t c))
  = line (customer_as_sanction_line (customer_of t c)) "".
Proof.
  apply (customer_as_sanction_row (name_of (t c) (t (S c)))
           (date_of (t (S (S c)))) (pick COUNTRIES (t (S (S (S c)))))).
  - apply name_of_plain.
  - apply strftime_plain.
  - apply pick_plain; [apply pools_nonempty | reflexivity].
Qed.

Lemma customers_as_sanction_lines include_christina t n c :
  Forall (fun row => Csv.row_text (Csv.row_fields sanction_fieldnames row)
                     = line (customer_as_sanction_line row) "")
         (customer_prefix include_christina ++ customer_rows t n c).
Proof.
  apply Forall_app. split.
  - destruct include_christina; constructor; [reflexivity | constructor].
  - apply rows_from_Forall. apply customer_of_as_sanction.
Qed.

(** X12: the two field orders are not interchangeable.  Where opening,
    storing and printing do not fail, customers written under the sanction
    field order are accepted: the file holds the five-column header line and
    for each customer its three values followed by two empty columns.
    Sanctions written under the customer field order are refused at the first
    record, whenever there is one, with ValueError, and the file is left
    holding the three-column header line and nothing else. *)
Theorem field_orders_not_interchangeable (count : Z) (include_christina : bool)
    (r : RandomSource) (filename : string) (e : Os.env) :
  1 <= count \/ include_christina = true ->
  Os.open_fault e filename = None ->
  (forall text, Os.store_fault e filename text = None) ->
  (forall printed, Os.print_fault e printed = None) ->
  exists customers sanctions r1 r2 e1 e2,
    generate_customers count include_christina r = (Ok customers, r1)
    /\ generate_sanctions count include_christina r = (Ok sanctions, r2)
    /\ Os.write_csv filename customers sanction_fieldnames e = (Ok tt, e1)
    /\ Os.files e1 filename
       = Some (lines ("name,date_of_birth,country,program,aliases"%string
                      :: map customer_as_sanction_line customers))
    /\ Forall customer_under_sanction_order customers
    /\ Os.write_csv filename sanctions customer_fieldnames e
       = (Raise ValueError, e2)
    /\ Os.files e2 filename = Some (line "name,date_of_birth,country" "").
Proof.
  intros Hsome O S P. do 6 eexists.
  split; [apply generate_customers_eq|]. split; [apply generate_sanctions_eq|].
  split.
  { apply os_write_csv_no_fault; [|exact O|exact S|exact P].
    apply Forall_app. split.
    - destruct include_christina; constructor; [reflexivity | constructor].
    - apply customer_rows_fit_sanction_order. }
  split.
  { cbn [Os.files]. rewrite fs_write_same.
    rewrite (data_text_lines sanction_fieldnames customer_as_sanction_line _
               (customers_as_sanction_lines include_christina _ _ _)).
    reflexivity. }
  split.
  { apply Forall_app. split.
    - destruct include_christina; constructor;
        [apply anchor_under_sanction_order | constructor].
    - apply rows_from_Forall. apply customer_of_under_sanction_order. }
  assert (B : exists bad rest,
             (sanction_prefix include_christina
              ++ sanction_rows (tape r) (passes count include_christina)
                   (cursor r))%list = bad :: rest
             /\ sanction_layout bad).
  { destruct include_christina.
    - do 2 eexists. split; [reflexivity | apply anchor_layout].
    - destruct Hsome as [Hc|Hf]; [|discriminate Hf].
      unfold passes, range_len.
      destruct (Z.to_nat (count - 0)) as [|n] eqn:E; [lia|].
      do 2 eexists. split; [reflexivity | apply sanction_of_layout]. }
  destruct B as (bad & rest & E & L). rewrite E.
  change (bad :: rest) with ([] ++ bad :: rest)%list.
  rewrite (os_write_csv_wrong filename [] bad rest customer_fieldnames e
             (Forall_nil _) (sanction_has_wrong_field bad L)).
  rewrite O, S. split; [reflexivity|].
  cbn [Os.files]. rewrite fs_write_same. reflexivity.
Qed.

Lemma field_orders_not_interchangeable_witness :
  (1 <= 2 \/ true = true)
  /\ Os.open_fault (Os.quiet empty_fs) "server_data_large.csv" = None
  /\ (forall text,
        Os.store_fault (Os.quiet empty_fs) "server_data_large.csv" text = None)
  /\ (forall printed, Os.print_fault (Os.quiet empty_fs) printed = None)
  /\ exists customers sanctions r1 r2 e1 e2,
       generate_customers 2 true (counting_source 0) = (Ok customers, r1)
       /\ generate_sanctions 2 true (counting_source 0) = (Ok sanctions, r2)
       /\ Os.write_csv "server_data_large.csv" customers sanction_fieldnames
            (Os.quiet empty_fs) = (Ok tt, e1)
       /\ Os.files e1 "server_data_large.csv"
          = Some (lines ("name,date_of_birth,country,program,aliases"%string
                         :: map customer_as_sanction_line customers))
       /\ Forall customer_under_sanction_order customers
       /\ Os.write_csv "server_data_large.csv" sanctions customer_fieldnames
            (Os.quiet empty_fs) = (Raise ValueError, e2)
       /\ Os.files e2 "server_data_large.csv"
          = Some (line "name,date_of_birth,country" "").
Proof.
  split; [left; lia|]. split; [reflexivity|].
  split; [intros text; reflexivity|]. split; [intros printed; reflexivity|].
  apply (field_orders_not_interchangeable 2 true (counting_source 0)
           "server_data_large.csv" (Os.quiet empty_fs)).
  - left. lia.
  - reflexivity.
  - intros text. reflexivity.
  - intros printed. reflexivity.
Defined.

(* ================================================================== *)
(** ** The script as a whole *)

Lemma prints_ok_iff lines : forall e,
  fst (Os.prints lines e) = Ok tt
  <-> Forall (fun printed => Os.print_fault e printed = None) lines.
Proof.
  induction lines as [|l lines IH]; intros e; cbn [Os.prints].
  - split; [constructor | reflexivity].
  - unfold Os.print. destruct (Os.print_fault e l) eqn:P.
    + cbn [fst]. split; [discriminate | inversion 1; congruence].
    + rewrite IH. cbn [Os.print_fault].
      split; [intros H; constructor; assumption | inversion 1; assumption].
Qed.

Lemma prints_ok lines : forall e,
  Forall (fun printed => Os.print_fault e printed = None) lines ->
  Os.prints lines e
  = (Ok tt,
     Os.mkEnv (Os.files e) (Os.stdout e ++ lines) (Os.open_fault e)
       (Os.store_fault e) (Os.print_fault e)).
Proof.
  induction lines as [|l lines IH]; intros e H.
  - cbn [Os.prints]. rewrite app_nil_r. destruct e; reflexivity.
  - inversion H as [|? ? Hl Hrest]; subst. cbn [Os.prints]. unfold Os.print.
    rewrite Hl. rewrite IH by exact Hrest.
    cbn [Os.files Os.stdout Os.open_fault Os.store_fault Os.print_fault].
    rewrite <- app_assoc. reflexivity.
Qed.

Lemma passes_thousand : passes 1000 true = 999%nat.
Proof. reflexivity. Qed.

Lemma thousand_customers t c :
  List.length (christina_customer :: customer_rows t (passes 1000 true) c)
  = 1000%nat.
Proof.
  cbn [List.length]. unfold customer_rows. rewrite rows_from_length.
  rewrite passes_thousand. reflexivity.
Qed.

Lemma thousand_sanctions t c :
  List.length (christina_sanction :: sanction_rows t (passes 1000 true) c)
  = 1000%nat.
Proof.
  cbn [List.length]. unfold sanction_rows. rewrite rows_from_length.
  rewrite passes_thousand. reflexivity.
Qed.

Lemma reports_thousand :
  Os.report "client_data_large.csv" 1000
  = (Os.check_mark ++ " Generated client_data_large.csv with 1000 records")%string
  /\ Os.report "server_data_large.csv" 1000
     = (Os.check_mark ++ " Generated server_data_large.csv with 1000 records")%string
  /\ Script.summary 1000 1000
     = [(String "010" Os.bar_chart ++ " Summary:")%string;
        "  - Customers: 1000 (including Christina Vargas)"%string;
        "  - Sanctions: 1000 (including Christina Vargas)"%string;
        "  - Expected matches: 1 (Christina Vargas)"%string;
        (String "010" Os.light_bulb
         ++ " Upload these files through the UI to test with lower collision probability")%string].
Proof. split; [reflexivity|]. split; reflexivity. Qed.

Ltac script_fails :=
  cbn [fst];
  split;
  [ split; [intros H; discriminate H | intros H; decompose [and] H; congruence]
  | split;
    [ intros r' e' H; discriminate H
    | intros y Y; first [discriminate Y | injection Y as <-; reflexivity] ] ].

(** X13: the script, run on any random source in any surroundings.  It
    generates 1000 customers, then 1000 sanctions from the source as the
    customers left it.  It ends without an exception exactly when neither of
    the two files fails to open or to be stored and none of the seven printed
    lines fails to print.  It then leaves in each of the two files the header
    line, the anchor line and the other records, every other file as it was,
    and has printed the two reports and the five lines of the summary.  When
    the first file cannot be opened, as when its name is a directory, that
    error ends the run with nothing written. *)
Theorem main_writes_both_files (r : RandomSource) (e : Os.env) :
  exists customers sanctions r1 r2 more1 more2,
    generate_customers 1000 true r = (Ok customers, r1)
    /\ generate_sanctions 1000 true r1 = (Ok sanctions, r2)
    /\ List.length customers = 1000%nat
    /\ List.length sanctions = 1000%nat
    /\ let text1 :=
         line "name,date_of_birth,country"
           (line "Christina Vargas,1995-07-23,AU" more1) in
       let text2 :=
         line "name,date_of_birth,country,program,aliases"
           (line "Christina Vargas,1995-07-23,AU,OFAC SDN," more2) in
       let report1 :=
         (Os.check_mark
          ++ " Generated client_data_large.csv with 1000 records")%string in
       let report2 :=
         (Os.check_mark
          ++ " Generated server_data_large.csv with 1000 records")%string in
       let closing :=
         [(String "010" Os.bar_chart ++ " Summary:")%string;
          "  - Customers: 1000 (including Christina Vargas)"%string;
          "  - Sanctions: 1000 (including Christina Vargas)"%string;
          "  - Expected matches: 1 (Christina Vargas)"%string;
          (String "010" Os.light_bulb
           ++ " Upload these files through the UI to test with lower collision probability")%string] in
       (fst (fst (Script.main r e)) = Ok tt
        <-> (Os.open_fault e "client_data_large.csv" = None
             /\ Os.store_fault e "client_data_large.csv" text1 = None
             /\ Os.print_fault e report1 = None
             /\ Os.open_fault e "server_data_large.csv" = None
             /\ Os.store_fault e "server_data_large.csv" text2 = None
             /\ Os.print_fault e report2 = None
             /\ Forall (fun printed => Os.print_fault e printed = None) closing))
       /\ (forall r' e',
             Script.main r e = (Ok tt, r', e') ->
             r' = r2
             /\ Os.files e' "client_data_large.csv" = Some text1
             /\ Os.files e' "server_data_large.csv" = Some text2
             /\ (forall name : string,
                   name <> "client_data_large.csv"%string ->
                   name <> "server_data_large.csv"%string ->
                   Os.files e' name = Os.files e name)
             /\ Os.stdout e'
                = (Os.stdout e ++ report1 :: report2 :: closing)%list)
       /\ (forall x,
             Os.open_fault e "client_data_large.csv" = Some x ->
             Script.main r e = (Raise x, r1, e)).
Proof.
  pose proof (generate_customers_eq 1000 true r) as HC.
  cbn [customer_prefix app] in HC.
  set (r1 := mkSource (tape r)
               (cursor_after (fun _ _ => 4%nat) (tape r) (passes 1000 true)
                  (cursor r))) in *.
  pose proof (generate_sanctions_eq 1000 true r1) as HS.
  cbn [sanction_prefix app] in HS.
  set (r2 := mkSource (tape r1)
               (cursor_after sanction_draws (tape r1) (passes 1000 true)
                  (cursor r1))) in *.
  pose proof (thousand_customers (tape r) (cursor r)) as LC.
  pose proof (thousand_sanctions (tape r1) (cursor r1)) as LS.
  pose proof (anchored_customers_fit (tape r) (passes 1000 true) (cursor r)) as FC.
  pose proof (anchored_sanctions_fit (tape r1) (passes 1000 true) (cursor r1)) as FS.
  pose proof (customer_file_text
                (customer_rows (tape r) (passes 1000 true) (cursor r))) as TC.
  pose proof (sanction_file_text
                (sanction_rows (tape r1) (passes 1000 true) (cursor r1))) as TS.
  set (crows := customer_rows (tape r) (passes 1000 true) (cursor r)) in *.
  set (srows := sanction_rows (tape r1) (passes 1000 true) (cursor r1)) in *.
  clearbody crows srows r2.
  destruct reports_thousand as (R1 & R2 & R3).
  exists (christina_customer :: crows), (christina_sanction :: srows), r1, r2.
  exists (data_text customer_fieldnames crows).
  exists (data_text sanction_fieldnames srows).
  split; [exact HC|]. split; [exact HS|]. split; [exact LC|].
  split; [exact LS|]. cbv zeta.
  unfold Script.main. rewrite HC. cbv iota beta.
  rewrite (os_write_csv_cases _ _ _ _ FC). rewrite TC, LC, R1.
  destruct (Os.open_fault e "client_data_large.csv") as [x|]; [script_fails|].
  destruct (Os.store_fault e "client_data_large.csv" _) as [k|]; [script_fails|].
  destruct (Os.print_fault e (Os.check_mark ++ " Generated client_data_large.csv with 1000 records")%string)
    as [x|]; [script_fails|].
  cbv iota beta. rewrite HS. cbv iota beta.
  rewrite (os_write_csv_cases _ _ _ _ FS). rewrite TS, LS, R2.
  cbn [Os.files Os.stdout Os.open_fault Os.store_fault Os.print_fault].
  destruct (Os.open_fault e "server_data_large.csv") as [x|]; [script_fails|].
  destruct (Os.store_fault e "server_data_large.csv" _) as [k|]; [script_fails|].
  destruct (Os.print_fault e (Os.check_mark ++ " Generated server_data_large.csv with 1000 records")%string)
    as [x|]; [script_fails|].
  cbv iota beta. rewrite R3.
  match goal with
  | |- context [Os.prints ?l ?env] =>
      pose proof (prints_ok_iff l env) as PI;
      pose proof (prints_ok l env) as PO;
      destruct (Os.prints l env) as [res e3]
  end.
  cbn [fst Os.files Os.stdout Os.open_fault Os.store_fault Os.print_fault]
    in PI, PO |- *.
  split.
  { rewrite PI. split; [intros H; repeat split; exact H | intros H; apply H]. }
  split; [|intros y Y; discriminate Y].
  intros r' e' H. injection H as -> <- <-.
  specialize (PO (proj1 PI eq_refl)). injection PO as ->.
  cbn [Os.files Os.stdout].
  split; [reflexivity|].
  split.
  { rewrite fs_write_other by discriminate. apply fs_write_same. }
  split; [apply fs_write_same|].
  split.
  { intros name N1 N2. rewrite !fs_write_other by assumption. reflexivity. }
  rewrite <- !app_assoc. reflexivity.
Qed.

(* ================================================================== *)
(** ** Both generators started from the same source state *)

Lemma first_rows_same_person t c :
  same_person (customer_of t c) (sanction_of t c).
Proof. repeat split. Qed.

(** X14: when both generators are called on the same source state, as after
    seeding the generator anew before each call, the first synthesized
    customer and the first synthesized sanction carry the same name, date of
    birth and country: both loops make the same first four draws. *)
Theorem same_state_same_first_row (count : Z) (include_christina : bool)
    (r : RandomSource) :
  (if include_christina then 2 else 1) <= count ->
  exists customers sanctions customer sanction,
    fst (generate_customers count include_christina r) = Ok customers
    /\ fst (generate_sanctions count include_christina r) = Ok sanctions
    /\ nth_error customers (if include_christina then 1 else 0) = Some customer
    /\ nth_error sanctions (if include_christina then 1 else 0) = Some sanction
    /\ same_person customer sanction.
Proof.
  intros H.
  rewrite generate_customers_eq, generate_sanctions_eq. cbn [fst].
  assert (P : exists n, passes count include_christina = S n).
  { unfold passes, range_len.
    destruct (Z.to_nat (count - (if include_christina then 1 else 0)))
      as [|n] eqn:E; [destruct include_christina; lia | now exists n]. }
  destruct P as [n ->].
  unfold customer_rows, sanction_rows. cbn [rows_from].
  do 2 eexists.
  exists (customer_of (tape r) (cursor r)), (sanction_of (tape r) (cursor r)).
  split; [reflexivity|]. split; [reflexivity|].
  split; [destruct include_christina; reflexivity|].
  split; [destruct include_christina; reflexivity|].
  apply first_rows_same_person.
Qed.

Lemma same_state_same_first_row_witness :
  (if true then 2 else 1) <= 3
  /\ exists customers sanctions customer sanction,
       fst (generate_customers 3 true (counting_source 0)) = Ok customers
       /\ fst (generate_sanctions 3 true (counting_source 0)) = Ok sanctions
       /\ nth_error customers (if true then 1 else 0) = Some customer
       /\ nth_error sanctions (if true then 1 else 0) = Some sanction
       /\ same_person customer sanction.
Proof.
  split; [cbn; lia|].
  apply (same_state_same_first_row 3 true (counting_source 0)). cbn. lia.
Defined.
